(** * Table profiling service: identifier validation, query plan and report assembly

    A shallow embedding of [index.py], the HTTP handler of a read-only
    service that profiles the tables of a PostgreSQL database, together with
    the properties its design document states about it.

    Conventions of the embedding.
    - Python [str] values are [string]s of 8-bit characters; [str.lower]
      and the character classes of the identifier pattern act on the ASCII
      letters, which is where the source uses them.
    - An exception is a value of [exn]; a computation that may raise
      returns a [result].
    - Statements sent to the database are recorded in a trace, so that
      "no query is issued" is a statement about that trace. *)

From Stdlib Require Import ZArith String Ascii List Lia QArith Qminmax Bool Sorted SpecFloat.
From stdpp Require Import gmap strings.

Open Scope string_scope.
Open Scope list_scope.
Open Scope Z_scope.

(** ** Exceptions and results *)

(** The exception classes the handler can meet.  [ValueError] is what
    [_sanitize_ident] and [int] raise, [RuntimeError] is raised by
    [_connect], [DatabaseError] stands for whatever psycopg raises. *)
Inductive exn : Type :=
| ValueError (msg : string)
| RuntimeError (msg : string)
| ZeroDivisionError (msg : string)
| DatabaseError (msg : string).

(** [str(e)] *)
Definition str_exn (e : exn) : string :=
  match e with
  | ValueError m | RuntimeError m | ZeroDivisionError m | DatabaseError m => m
  end.

Inductive result (A : Type) : Type :=
| Ok (a : A)
| Raise (e : exn).
Arguments Ok {A} a.
Arguments Raise {A} e.

(** ** Strings *)

Definition newline : string := String "010"%char EmptyString.

(** Truthiness of a [str]: [not name] holds of the empty string only. *)
Definition str_truthy (s : string) : bool :=
  match s with
  | EmptyString => false
  | String _ _ => true
  end.

Definition in_range (lo hi : N) (c : ascii) : bool :=
  ((lo <=? N_of_ascii c) && (N_of_ascii c <=? hi))%N.

Definition is_upper (c : ascii) : bool := in_range 65 90 c.
Definition is_lower (c : ascii) : bool := in_range 97 122 c.
Definition is_digit (c : ascii) : bool := in_range 48 57 c.
Definition is_underscore (c : ascii) : bool := (N_of_ascii c =? 95)%N.

(** [str.startswith] *)
Fixpoint startswith (s p : string) {struct p} : bool :=
  match p with
  | EmptyString => true
  | String a p' =>
      match s with
      | EmptyString => false
      | String b s' => Ascii.eqb a b && startswith s' p'
      end
  end.

(** [x in s] for strings: [x] occurs in [s] as a contiguous substring. *)
Fixpoint str_in (x s : string) : bool :=
  startswith s x ||
  match s with
  | EmptyString => false
  | String _ s' => str_in x s'
  end.

Definition lower_char (c : ascii) : ascii :=
  if is_upper c then ascii_of_N (N_of_ascii c + 32) else c.

(** [str.lower] *)
Fixpoint lower (s : string) : string :=
  match s with
  | EmptyString => EmptyString
  | String c s' => String (lower_char c) (lower s')
  end.

(** [s.split(".", 1)]: the list of the text before the first dot and the
    text after it, or of [s] alone when it has no dot. *)
Fixpoint split1_dot (s : string) : list string :=
  match s with
  | EmptyString => [EmptyString]
  | String c s' =>
      if Ascii.eqb c "."%char then [EmptyString; s']
      else match split1_dot s' with
           | [] => []
           | a :: rest => String c a :: rest
           end
  end.

(** ** Regular expressions, as far as [_IDENT_RE] needs them

    A pattern is a sequence of items.  The meaning of each item is the one
    of Python's [re] module without flags: [^] holds at the start of the
    string, [$] holds at the end of the string and also just before a
    newline that is the last character, a character class consumes one
    character, a starred class is greedy and backtracks. *)

Inductive re_item : Type :=
| Bol
| Eol
| One (cls : ascii -> bool)
| Many (cls : ascii -> bool).

Definition at_eol (s : string) : bool :=
  match s with
  | EmptyString => true
  | String c EmptyString => Ascii.eqb c "010"%char
  | String _ (String _ _) => false
  end.

(** [re_run p at0 s]: the pattern [p] matches some prefix of [s]; [at0]
    tells whether [s] is the whole subject (position 0). *)
Fixpoint re_run (p : list re_item) (at0 : bool) (s : string) {struct p} : bool :=
  match p with
  | [] => true
  | Bol :: p' => at0 && re_run p' at0 s
  | Eol :: p' => at_eol s && re_run p' at0 s
  | One cls :: p' =>
      match s with
      | EmptyString => false
      | String a s' => cls a && re_run p' false s'
      end
  | Many cls :: p' =>
      (fix star (at0 : bool) (s : string) {struct s} : bool :=
         match s with
         | EmptyString => re_run p' at0 s
         | String a s' => (cls a && star false s') || re_run p' at0 s
         end) at0 s
  end.

(** [pattern.match(s)] is truthy *)
Definition re_match (p : list re_item) (s : string) : bool := re_run p true s.

Definition ident_start (c : ascii) : bool :=
  is_upper c || is_lower c || is_underscore c.

Definition ident_cont (c : ascii) : bool :=
  is_upper c || is_lower c || is_digit c || is_underscore c.

(** [_IDENT_RE = re.compile(r"^[A-Za-z_][A-Za-z0-9_]*$")] *)
Definition _IDENT_RE : list re_item :=
  [Bol; One ident_start; Many ident_cont; Eol].

Definition _sanitize_ident (name : string) : result string :=
  if negb (str_truthy name) then Raise (ValueError "Empty identifier")
  else if negb (re_match _IDENT_RE name)
       then Raise (ValueError ("Invalid identifier: " +:+ name))
       else Ok name.

(** The identifier grammar in the words of the design document: an ASCII
    letter or underscore, then ASCII letters, digits and underscores. *)
Fixpoint all_chars (cls : ascii -> bool) (s : string) : bool :=
  match s with
  | EmptyString => true
  | String c s' => cls c && all_chars cls s'
  end.

Definition identifier_grammar (s : string) : bool :=
  match s with
  | EmptyString => false
  | String c s' => ident_start c && all_chars ident_cont s'
  end.

(** ** The database as the handler sees it

    The engine is an external collaborator.  A statement is identified by
    the helper that builds its SQL text and by the values interpolated or
    bound into it; a cursor gives, for each statement, either the rows
    fetched or the exception raised by [execute]. *)

Inductive sqlval : Type :=
| SqlNull
| SqlInt (z : Z)
| SqlNum (q : Q)
| SqlText (s : string).

Inductive query : Type :=
| ListTables
| GetColumns (schema table : string)
| ColumnNullCount (schema table col : string)
| ColumnUniqueCount (schema table col : string)
| NumericStats (schema table col : string)
| TableRowCounts (schema table : string) (col_list : list string)
| Histogram (schema table col : string) (buckets : Z)
| Preview (schema table : string) (limit : Z).

(** The row [n, min, max, mean, stddev, q1, median, q3] of [_numeric_stats]. *)
Record stats_row : Type := {
  sr_n : sqlval; sr_min : sqlval; sr_max : sqlval; sr_mean : sqlval;
  sr_stddev : sqlval; sr_q1 : sqlval; sr_median : sqlval; sr_q3 : sqlval
}.

(** What [fetchall] or [fetchone] returns for each statement, by the
    shape of its SELECT list. *)
Definition rows_of (q : query) : Type :=
  match q with
  | ListTables => list (string * string)
  | GetColumns _ _ => list (string * option string)
  | ColumnNullCount _ _ _ => Z
  | ColumnUniqueCount _ _ _ => Z
  | NumericStats _ _ _ => stats_row
  | TableRowCounts _ _ _ => Z * Z
  | Histogram _ _ _ _ => list (Z * Z * option Q * option Q)
  | Preview _ _ _ => list string * list (list sqlval)
  end.

Definition Cursor : Type := forall q : query, result (rows_of q).

Inductive event : Type :=
| Connect (dsn : string)
| Execute (q : query).

(** ** Computations: a trace of database events, and exceptions *)

Definition M (A : Type) : Type := list event -> result A * list event.

Definition ret {A} (a : A) : M A := fun tr => (Ok a, tr).

Definition raise {A} (e : exn) : M A := fun tr => (Raise e, tr).

Definition bind {A B} (m : M A) (k : A -> M B) : M B :=
  fun tr =>
    match m tr with
    | (Ok a, tr') => k a tr'
    | (Raise e, tr') => (Raise e, tr')
    end.

Notation "x <- m ;; k" := (bind m (fun x => k))
  (at level 100, m at next level, right associativity).

Definition lift {A} (r : result A) : M A := fun tr => (r, tr).

(** [try: m  except Exception as e: h e] *)
Definition try_except {A} (m : M A) (h : exn -> M A) : M A :=
  fun tr =>
    match m tr with
    | (Ok a, tr') => (Ok a, tr')
    | (Raise e, tr') => h e tr'
    end.

(** [cur.execute(sql); cur.fetchall()] *)
Definition execute (cur : Cursor) (q : query) : M (rows_of q) :=
  fun tr => (cur q, tr ++ [Execute q]).

(** [[f(x) for x in l]] and the [for] loop that appends [f(x)] to a list *)
Fixpoint for_each {A B} (f : A -> M B) (l : list A) : M (list B) :=
  match l with
  | [] => ret []
  | x :: l' => y <- f x ;; ys <- for_each f l' ;; ret (y :: ys)
  end.

(** ** Values of the report *)

Record ColumnMeta : Type := { col_name : string; col_data_type : option string }.

Record RowStats : Type := {
  total_rows : Z;
  duplicate_rows : Z;
  duplicate_pct : spec_float
}.

(** [dict(n=..., min=..., ...)] *)
Record NumericStatsDict : Type := {
  ns_n : sqlval; ns_min : sqlval; ns_max : sqlval; ns_mean : sqlval;
  ns_stddev : sqlval; ns_q1 : sqlval; ns_median : sqlval; ns_q3 : sqlval
}.

(** The [entry] dict of one column.  The keys [numeric_stats] and
    [numeric_stats_error] are each present or absent. *)
Record ColumnMetrics : Type := {
  cm_name : string;
  cm_data_type : option string;
  cm_nulls : Z;
  cm_unique : Z;
  cm_numeric_stats : option NumericStatsDict;
  cm_numeric_stats_error : option string
}.

Record HistogramBucket : Type := {
  hb_bucket : Z;
  hb_count : Z;
  hb_min : option spec_float;
  hb_max : option spec_float
}.

Inductive payload : Type :=
| ErrorBody (error : string)
| HealthBody (ts : string)
| TablesBody (tables : list (string * string))
| SummaryBody (table : string) (row_stats : RowStats) (columns : list ColumnMetrics)
| HistogramBody (table column : string) (buckets : Z) (histogram : list HistogramBucket)
| PreviewBody (columns : list string) (rows : list (list sqlval)).

Record response : Type := { status : Z; body : payload }.

(** [self._write_json(payload, status)] *)
Definition _write_json (p : payload) (st : Z) : response :=
  {| status := st; body := p |}.

(** ** Python arithmetic used by the helpers *)

(** A Python [float] is an IEEE 754 binary64 number: a [spec_float] with a
    precision of 53 bits and exponents below 1024.  Conversions and
    division round to nearest, ties to even. *)
Definition binary64_prec : Z := 53.
Definition binary64_emax : Z := 1024.

(** [float(z)] of an [int]: the binary64 number nearest to [z].  The
    integers converted here are counts, which the statements cast to
    bigint; from 2^1024 on, where Python raises [OverflowError], this is
    the infinity that rounding gives. *)
Definition float (z : Z) : spec_float :=
  binary_normalize binary64_prec binary64_emax z 0 false.

(** [float(x)] of a numeric value fetched from the database, an [int] or a
    [Decimal] of value [q]: the binary64 number nearest to [q]. *)
Definition float_of_num (q : Q) : spec_float :=
  match Qnum q with
  | Z0 => S754_zero false
  | Zpos n =>
      SFdiv binary64_prec binary64_emax
        (S754_finite false n 0) (S754_finite false (Qden q) 0)
  | Zneg n =>
      SFdiv binary64_prec binary64_emax
        (S754_finite true n 0) (S754_finite false (Qden q) 0)
  end.

(** The literal [0.0] *)
Definition float_zero : spec_float := S754_zero false.

Definition is_zero_float (x : spec_float) : bool :=
  match x with
  | S754_zero _ => true
  | _ => false
  end.

(** [x / y] on floats raises [ZeroDivisionError] when [y] is a zero, and
    is the rounded quotient otherwise. *)
Definition float_div (x y : spec_float) : result spec_float :=
  if is_zero_float y then Raise (ZeroDivisionError "float division by zero")
  else Ok (SFdiv binary64_prec binary64_emax x y).

(** Truthiness of an [int] *)
Definition int_truthy (z : Z) : bool := negb (z =? 0).

(** ** The helpers of [index.py] *)

Definition _list_tables (cur : Cursor) : M (list (string * string)) :=
  execute cur ListTables.

Definition _get_columns (cur : Cursor) (schema table : string) : M (list ColumnMeta) :=
  rows <- execute cur (GetColumns schema table) ;;
  ret (map (fun r => {| col_name := fst r; col_data_type := snd r |}) rows).

Definition _column_null_count (cur : Cursor) (schema table col : string) : M Z :=
  execute cur (ColumnNullCount schema table col).

Definition _column_unique_count (cur : Cursor) (schema table col : string) : M Z :=
  execute cur (ColumnUniqueCount schema table col).

(** [dict(n=row[0], min=row[1], ..., q3=row[7])] *)
Definition stats_dict (row : stats_row) : NumericStatsDict :=
  {| ns_n := sr_n row; ns_min := sr_min row; ns_max := sr_max row;
     ns_mean := sr_mean row; ns_stddev := sr_stddev row;
     ns_q1 := sr_q1 row; ns_median := sr_median row; ns_q3 := sr_q3 row |}.

Definition _numeric_stats (cur : Cursor) (schema table col : string) : M NumericStatsDict :=
  row <- execute cur (NumericStats schema table col) ;;
  ret (stats_dict row).

Definition _table_row_counts_and_dupes (cur : Cursor) (schema table : string)
    (columns : list ColumnMeta) : M RowStats :=
  let col_list := map col_name columns in
  row <- execute cur (TableRowCounts schema table col_list) ;;
  let '(total, dupes) := row in
  pct <- (if int_truthy total then lift (float_div (float dupes) (float total))
          else ret float_zero) ;;
  ret {| total_rows := total; duplicate_rows := dupes; duplicate_pct := pct |}.

Definition _histogram (cur : Cursor) (schema table col : string) (buckets : Z)
    : M (list HistogramBucket) :=
  rows <- execute cur (Histogram schema table col buckets) ;;
  ret (map (fun r : Z * Z * option Q * option Q =>
              let '(bkt, ct, mn, mx) := r in
              {| hb_bucket := bkt; hb_count := ct;
                 hb_min := option_map float_of_num mn;
                 hb_max := option_map float_of_num mx |}) rows).

(** ** The request handler *)

(** What lies outside the module: the process environment, the psycopg
    driver, Python's [int] on strings and the clock. *)
Record Env : Type := {
  DATABASE_URL : option string;
  psycopg_connect : string -> result Cursor;
  int_of_str : string -> result Z;
  utcnow_isoformat : string
}.

(** A request after [urlparse] and [parse_qs]: the path and the dict from
    parameter names to the lists of their values. *)
Record request : Type := {
  path : string;
  qs : gmap string (list string)
}.

Definition _connect (env : Env) : M Cursor :=
  match DATABASE_URL env with
  | Some dsn =>
      if str_truthy dsn
      then fun tr => (psycopg_connect env dsn, tr ++ [Connect dsn])
      else raise (RuntimeError "DATABASE_URL env var is not set")
  | None => raise (RuntimeError "DATABASE_URL env var is not set")
  end.

(** [(qs.get(key) or [default])[0]] *)
Definition qs_first (q : gmap string (list string)) (key default : string) : string :=
  match q !! key with
  | Some (v :: _) => v
  | Some [] => default
  | None => default
  end.

(** The four lines that turn the [table] parameter into a schema and a
    table name:
    [if "." in tbl: sch, tab = tbl.split(".", 1)  else: sch, tab = "public", tbl],
    where an absent [tbl] is the empty string.
    Unpacking raises unless the list has two elements. *)
Definition split_table (tbl : string) : result (string * string) :=
  if str_in "." tbl then
    match split1_dot tbl with
    | [sch; tab] => Ok (sch, tab)
    | _ => Raise (ValueError "not enough values to unpack (expected 2, got 1)")
    end
  else Ok ("public", if str_truthy tbl then tbl else EmptyString).

(** The trigger list of the numeric branch *)
Definition numeric_markers : list string :=
  ["integer"; "numeric"; "double"; "real"; "bigint"; "smallint"; "decimal"].

(** [any(x in dtype.lower() for x in [...])], with the empty string for a
    [dtype] that is [None]. *)
Definition is_numeric_dtype (dtype : option string) : bool :=
  existsb (fun x => str_in x (lower (default EmptyString dtype))) numeric_markers.

(** The body of the loop over the columns of a summary. *)
Definition column_entry (cur : Cursor) (sch tab : string) (c : ColumnMeta) : M ColumnMetrics :=
  let name := col_name c in
  let dtype := col_data_type c in
  nulls <- _column_null_count cur sch tab name ;;
  uniq <- _column_unique_count cur sch tab name ;;
  let entry := {| cm_name := name; cm_data_type := dtype;
                  cm_nulls := nulls; cm_unique := uniq;
                  cm_numeric_stats := None; cm_numeric_stats_error := None |} in
  if is_numeric_dtype dtype then
    try_except
      (s <- _numeric_stats cur sch tab name ;;
       ret {| cm_name := cm_name entry; cm_data_type := cm_data_type entry;
              cm_nulls := cm_nulls entry; cm_unique := cm_unique entry;
              cm_numeric_stats := Some s;
              cm_numeric_stats_error := cm_numeric_stats_error entry |})
      (fun e =>
       ret {| cm_name := cm_name entry; cm_data_type := cm_data_type entry;
              cm_nulls := cm_nulls entry; cm_unique := cm_unique entry;
              cm_numeric_stats := cm_numeric_stats entry;
              cm_numeric_stats_error := Some (str_exn e) |})
  else ret entry.

(** The branch [if path.startswith("/api/summary")] of [do_GET]. *)
Definition summary (env : Env) (req : request) : M response :=
  let tbl := qs_first (qs req) "table" EmptyString in
  st <- lift (split_table tbl) ;;
  let '(sch, tab) := st in
  sch <- lift (_sanitize_ident sch) ;;
  tab <- lift (_sanitize_ident tab) ;;
  cur <- _connect env ;;
  cols <- _get_columns cur sch tab ;;
  match cols with
  | [] => ret (_write_json (ErrorBody ("Tabla " +:+ sch +:+ "." +:+ tab +:+ " no encontrada")) 404)
  | _ :: _ =>
      counts <- _table_row_counts_and_dupes cur sch tab cols ;;
      col_metrics <- for_each (column_entry cur sch tab) cols ;;
      ret (_write_json (SummaryBody (sch +:+ "." +:+ tab) counts col_metrics) 200)
  end.

(** The branch [if path.startswith("/api/histogram")] of [do_GET]. *)
Definition histogram (env : Env) (req : request) : M response :=
  let tbl := qs_first (qs req) "table" EmptyString in
  let col := qs_first (qs req) "column" EmptyString in
  buckets <- lift (int_of_str env (qs_first (qs req) "buckets" "20")) ;;
  st <- lift (split_table tbl) ;;
  let '(sch, tab) := st in
  sch <- lift (_sanitize_ident sch) ;;
  tab <- lift (_sanitize_ident tab) ;;
  col <- lift (_sanitize_ident col) ;;
  cur <- _connect env ;;
  data <- _histogram cur sch tab col buckets ;;
  ret (_write_json (HistogramBody (sch +:+ "." +:+ tab) col buckets data) 200).

(** The branch [if path.startswith("/api/preview")] of [do_GET]. *)
Definition preview (env : Env) (req : request) : M response :=
  let tbl := qs_first (qs req) "table" EmptyString in
  limit <- lift (int_of_str env (qs_first (qs req) "limit" "10")) ;;
  st <- lift (split_table tbl) ;;
  let '(sch, tab) := st in
  sch <- lift (_sanitize_ident sch) ;;
  tab <- lift (_sanitize_ident tab) ;;
  cur <- _connect env ;;
  res <- execute cur (Preview sch tab limit) ;;
  ret (_write_json (PreviewBody (fst res) (snd res)) 200).

(** The [try] block of [do_GET] *)
Definition route (env : Env) (req : request) : M response :=
  let path := if str_truthy (path req) then path req else "/" in
  if startswith path "/api/health" then
    ret (_write_json (HealthBody (utcnow_isoformat env)) 200)
  else if startswith path "/api/tables" then
    cur <- _connect env ;;
    tables <- _list_tables cur ;;
    ret (_write_json (TablesBody tables) 200)
  else if startswith path "/api/summary" then summary env req
  else if startswith path "/api/histogram" then histogram env req
  else if startswith path "/api/preview" then preview env req
  else ret (_write_json (ErrorBody "Not found") 404).

(** [do_GET]: the response written and the database events of the
    request. *)
Definition do_GET (env : Env) (req : request) : response * list event :=
  match route env req [] with
  | (Ok resp, tr) => (resp, tr)
  | (Raise e, tr) => (_write_json (ErrorBody (str_exn e)) 500, tr)
  end.

(** ** The statements, evaluated over the contents of the tables

    The SQL text of each helper is fixed by the source; this section gives
    its result over a database whose tables hold integers, decimals, text
    and nulls.  Two parts of the engine stay parameters: the bucketing
    function [width_bucket], and the evaluation of the aggregates of
    [_numeric_stats] (which may fail). *)

Record table_data : Type := {
  t_schema : string;
  t_name : string;
  t_columns : list (string * string);  (* name and data type, by ordinal position *)
  t_rows : list (list sqlval)          (* one value per column *)
}.

Definition database : Type := list table_data.

Definition is_null (v : sqlval) : bool :=
  match v with SqlNull => true | _ => false end.

Definition sqlval_eqb (a b : sqlval) : bool :=
  match a, b with
  | SqlNull, SqlNull => true
  | SqlInt x, SqlInt y => x =? y
  | SqlNum x, SqlNum y => Qeq_bool x y
  | SqlInt x, SqlNum y => Qeq_bool (inject_Z x) y
  | SqlNum x, SqlInt y => Qeq_bool x (inject_Z y)
  | SqlText x, SqlText y => String.eqb x y
  | _, _ => false
  end.

Fixpoint row_eqb (r1 r2 : list sqlval) : bool :=
  match r1, r2 with
  | [], [] => true
  | a :: r1', b :: r2' => sqlval_eqb a b && row_eqb r1' r2'
  | _, _ => false
  end.

(** The values kept by DISTINCT: one of each class of equal values. *)
Fixpoint distinct {A} (eqb : A -> A -> bool) (l : list A) : list A :=
  match l with
  | [] => []
  | x :: l' => if existsb (eqb x) l' then distinct eqb l' else x :: distinct eqb l'
  end.

Definition find_table (d : database) (schema table : string) : option table_data :=
  find (fun t => String.eqb (t_schema t) schema && String.eqb (t_name t) table) d.

Fixpoint column_index (cols : list (string * string)) (col : string) : option nat :=
  match cols with
  | [] => None
  | (n, _) :: cols' =>
      if String.eqb n col then Some O
      else option_map S (column_index cols' col)
  end.

(** The values of one column, row by row. *)
Definition column_cells (d : database) (schema table col : string) : option (list sqlval) :=
  match find_table d schema table with
  | None => None
  | Some t =>
      match column_index (t_columns t) col with
      | None => None
      | Some i => Some (map (fun r => nth i r SqlNull) (t_rows t))
      end
  end.

Definition non_null (cells : list sqlval) : list sqlval :=
  List.filter (fun v => negb (is_null v)) cells.

Definition undefined_object {A} : result A :=
  Raise (DatabaseError "relation or column does not exist").

(** The rows of a table projected on a list of columns. *)
Fixpoint project_rows (d : database) (schema table : string) (cols : list string)
    (nrows : nat) : option (list (list sqlval)) :=
  match cols with
  | [] => Some (repeat [] nrows)
  | c :: cols' =>
      match column_cells d schema table c, project_rows d schema table cols' nrows with
      | Some cells, Some rest => Some (map (fun p => fst p :: snd p) (combine cells rest))
      | _, _ => None
      end
  end.

(** The rational denoted by a numeric value; text has none. *)
Definition numeric_value (v : sqlval) : option Q :=
  match v with
  | SqlInt z => Some (inject_Z z)
  | SqlNum q => Some q
  | SqlNull | SqlText _ => None
  end.

Fixpoint numeric_values (cells : list sqlval) : option (list Q) :=
  match cells with
  | [] => Some []
  | v :: cells' =>
      match numeric_value v, numeric_values cells' with
      | Some q, Some qs => Some (q :: qs)
      | _, _ => None
      end
  end.

(** [GROUP BY bkt ... ORDER BY bkt] with [COUNT( * )]: the bucket numbers
    that occur, ascending, each with its number of rows. *)
Fixpoint bump (b : Z) (groups : list (Z * Z)) : list (Z * Z) :=
  match groups with
  | [] => [(b, 1)]
  | (b', ct) :: groups' =>
      if b <? b' then (b, 1) :: (b', ct) :: groups'
      else if b =? b' then (b', ct + 1) :: groups'
      else (b', ct) :: bump b groups'
  end.

Definition group_count (bkts : list Z) : list (Z * Z) :=
  fold_right bump [] bkts.

Fixpoint map_result {A B} (f : A -> result B) (l : list A) : result (list B) :=
  match l with
  | [] => Ok []
  | x :: l' =>
      match f x with
      | Raise e => Raise e
      | Ok y =>
          match map_result f l' with
          | Raise e => Raise e
          | Ok ys => Ok (y :: ys)
          end
      end
  end.

(** [ORDER BY 1,2] on pairs of names, in byte order. *)
Definition pair_leb (a b : string * string) : bool :=
  match String.compare (fst a) (fst b) with
  | Lt => true
  | Eq => String.leb (snd a) (snd b)
  | Gt => false
  end.

Fixpoint insert_sorted (a : string * string) (l : list (string * string))
    : list (string * string) :=
  match l with
  | [] => [a]
  | b :: l' => if pair_leb a b then a :: b :: l' else b :: insert_sorted a l'
  end.

Definition order_by_1_2 (l : list (string * string)) : list (string * string) :=
  fold_right insert_sorted [] l.

Section Engine.

Variable width_bucket : Q -> Q -> Q -> Z -> result Z.
Variable aggregates : list sqlval -> result stats_row.

(** [SELECT table_schema, table_name FROM information_schema.tables ...] *)
Definition sql_list_tables (d : database) : list (string * string) :=
  order_by_1_2
    (map (fun t => (t_schema t, t_name t))
       (List.filter (fun t => negb (String.eqb (t_schema t) "pg_catalog"
                               || String.eqb (t_schema t) "information_schema")) d)).

(** [SELECT column_name, data_type FROM information_schema.columns ...]:
    no row when the table is not in the catalog. *)
Definition sql_columns (d : database) (schema table : string)
    : list (string * option string) :=
  match find_table d schema table with
  | None => []
  | Some t => map (fun c => (fst c, Some (snd c))) (t_columns t)
  end.

(** [COUNT( * ) FILTER (WHERE col IS NULL)] *)
Definition sql_null_count (cells : list sqlval) : Z :=
  Z.of_nat (length (List.filter is_null cells)).

(** [COUNT(DISTINCT col)] *)
Definition sql_unique_count (cells : list sqlval) : Z :=
  Z.of_nat (length (distinct sqlval_eqb (non_null cells))).

(** [COUNT( * )] and [COUNT( * ) - COUNT(DISTINCT (col_list))].  With one
    column the parenthesised list is that column, and its nulls are not
    counted; with several it is a row value. *)
Definition sql_row_counts (col_list : list string) (rows : list (list sqlval)) : Z * Z :=
  let total := Z.of_nat (length rows) in
  let uniq :=
    match col_list with
    | [_] => Z.of_nat (length (distinct sqlval_eqb (non_null (map (hd SqlNull) rows))))
    | _ => Z.of_nat (length (distinct row_eqb rows))
    end in
  (total, total - uniq).

(** The statement of [_histogram]: the extremes of the non-null values,
    the bucket number of each such value, and one row per bucket number
    that occurs.  The rows are read in the order [ORDER BY bkt] gives them
    inside the common table expression. *)
Definition sql_histogram (cells : list sqlval) (buckets : Z)
    : result (list (Z * Z * option Q * option Q)) :=
  match numeric_values (non_null cells) with
  | None => Raise (DatabaseError "function width_bucket does not exist")
  | Some [] => Ok []
  | Some (v :: vs) =>
      let mn := fold_right Qmin v vs in
      let mx := fold_right Qmax v vs in
      match map_result (fun x => width_bucket x mn mx buckets) (v :: vs) with
      | Raise e => Raise e
      | Ok bkts => Ok (map (fun g => (fst g, snd g, Some mn, Some mx)) (group_count bkts))
      end
  end.

(** [SELECT * FROM t LIMIT n].  The limit is a bigint: a value outside
    its range is refused, and so is a negative one. *)
Definition sql_preview (t : table_data) (limit : Z) : result (list string * list (list sqlval)) :=
  if (limit <? - 2 ^ 63) || (2 ^ 63 <=? limit)
  then Raise (DatabaseError "bigint out of range")
  else if limit <? 0 then Raise (DatabaseError "LIMIT must not be negative")
  else Ok (map fst (t_columns t), firstn (Z.to_nat limit) (t_rows t)).

Definition on_column {A} (d : database) (schema table col : string)
    (f : list sqlval -> result A) : result A :=
  match column_cells d schema table col with
  | None => undefined_object
  | Some cells => f cells
  end.

(** A cursor on the database [d]. *)
Definition pg_cursor (d : database) : Cursor :=
  fun q =>
    match q as q0 return result (rows_of q0) with
    | ListTables => Ok (sql_list_tables d)
    | GetColumns schema table => Ok (sql_columns d schema table)
    | ColumnNullCount schema table col =>
        on_column d schema table col (fun cells => Ok (sql_null_count cells))
    | ColumnUniqueCount schema table col =>
        on_column d schema table col (fun cells => Ok (sql_unique_count cells))
    | NumericStats schema table col =>
        on_column d schema table col (fun cells => aggregates (non_null cells))
    | TableRowCounts schema table col_list =>
        match find_table d schema table, col_list with
        | None, _ => undefined_object
        | Some _, [] => Raise (DatabaseError "syntax error at or near )")
        | Some t, _ :: _ =>
            match project_rows d schema table col_list (length (t_rows t)) with
            | None => undefined_object
            | Some rows => Ok (sql_row_counts col_list rows)
            end
        end
    | Histogram schema table col buckets =>
        on_column d schema table col (fun cells => sql_histogram cells buckets)
    | Preview schema table limit =>
        match find_table d schema table with
        | None => undefined_object
        | Some t => sql_preview t limit
        end
    end.

End Engine.

(** ** A small database for the examples

    The table [public.t(id integer, name text)] of the design document,
    with the rows (1,'a'), (2,'a'), (null,'b'). *)

Definition demo_db : database :=
  [ {| t_schema := "public"; t_name := "t";
       t_columns := [("id", "integer"); ("name", "text")];
       t_rows := [ [SqlInt 1; SqlText "a"];
                   [SqlInt 2; SqlText "a"];
                   [SqlNull; SqlText "b"] ] |} ].

(** An engine whose aggregates over a column fail. *)
Definition failing_aggregates (cells : list sqlval) : result stats_row :=
  Raise (DatabaseError "function avg does not exist").

(** An engine that answers [_numeric_stats] with the count alone. *)
Definition counting_aggregates (cells : list sqlval) : result stats_row :=
  Ok {| sr_n := SqlInt (Z.of_nat (length cells)); sr_min := SqlNull; sr_max := SqlNull;
        sr_mean := SqlNull; sr_stddev := SqlNull; sr_q1 := SqlNull;
        sr_median := SqlNull; sr_q3 := SqlNull |}.

(** The bucket numbers of the examples.  The columns of the examples have
    two distinct values, which are the two bounds handed to
    [width_bucket] and stay distinct as binary64 numbers; with a count
    from 1 to 2^31 - 2 the engine puts the lower bound in bucket 1 and the
    upper bound in bucket [count + 1].  No other call occurs in the
    examples; this stand-in refuses them. *)
Definition demo_width_bucket (v lo hi : Q) (n : Z) : result Z :=
  if (0 <? n) && (n <? 2 ^ 31 - 1)
     && SFltb (float_of_num lo) (float_of_num hi) then
    if Qeq_bool v lo then Ok 1
    else if Qeq_bool v hi then Ok (n + 1)
    else Raise (DatabaseError "not a value of the examples")
  else Raise (DatabaseError "not a call of the examples").

Definition demo_cursor : Cursor := pg_cursor demo_width_bucket failing_aggregates demo_db.

(** [int] on the few decimal strings the examples use. *)
Definition demo_int (s : string) : result Z :=
  if String.eqb s "2" then Ok 2
  else if String.eqb s "10" then Ok 10
  else if String.eqb s "20" then Ok 20
  else Raise (ValueError ("invalid literal for int() with base 10: '" +:+ s +:+ "'")).

Definition demo_env : Env :=
  {| DATABASE_URL := Some "postgresql://localhost/demo";
     psycopg_connect := fun _ => Ok demo_cursor;
     int_of_str := demo_int;
     utcnow_isoformat := "2024-01-01T00:00:00" |}.

(** The histogram of [public.t.id] in two buckets, as the design document
    gives it: the values 1 and 2 fall in two buckets, and both buckets
    report the extremes 1 and 2 of the column. *)
Definition demo_histogram : list HistogramBucket :=
  [ {| hb_bucket := 1; hb_count := 1;
       hb_min := Some (float_of_num 1); hb_max := Some (float_of_num 2) |};
    {| hb_bucket := 3; hb_count := 1;
       hb_min := Some (float_of_num 1); hb_max := Some (float_of_num 2) |} ].

(** ** The vocabulary of the design document *)

(** [x] occurs in [s] when letter case is ignored. *)
Definition contains_ignoring_case (x s : string) : Prop :=
  exists l m r, s = l +:+ m +:+ r /\ lower m = lower x.



(** A status of the client-error class. *)
Definition is_4xx (st : Z) : Prop := 400 <= st < 500.


(** The exception raised by the first name of a list that fails
    validation, when the names are validated in order. *)
Fixpoint first_invalid (names : list string) : option exn :=
  match names with
  | [] => None
  | n :: names' =>
      match _sanitize_ident n with
      | Raise e => Some e
      | Ok _ => first_invalid names'
      end
  end.

(** The request names the table [sch.tab], and both names pass validation. *)
Definition validated_table (req : request) (sch tab : string) : Prop :=
  split_table (qs_first (qs req) "table" EmptyString) = Ok (sch, tab)
  /\ _sanitize_ident sch = Ok sch /\ _sanitize_ident tab = Ok tab.

(** The environment gives a connection string, and connecting with it
    yields the cursor [cur]. *)
Definition session (env : Env) (dsn : string) (cur : Cursor) : Prop :=
  DATABASE_URL env = Some dsn /\ str_truthy dsn = true
  /\ psycopg_connect env dsn = Ok cur.

(** The entry [e] of a report is the profile of the column [c]: its name
    and type, its two counts as the engine gave them, and the outcome of
    the numeric branch. *)
Definition column_profiled (cur : Cursor) (sch tab : string)
    (c : ColumnMeta) (e : ColumnMetrics) : Prop :=
  cm_name e = col_name c /\ cm_data_type e = col_data_type c
  /\ cur (ColumnNullCount sch tab (col_name c)) = Ok (cm_nulls e)
  /\ cur (ColumnUniqueCount sch tab (col_name c)) = Ok (cm_unique e)
  /\ match is_numeric_dtype (col_data_type c), cur (NumericStats sch tab (col_name c)) with
     | false, _ => cm_numeric_stats e = None /\ cm_numeric_stats_error e = None
     | true, Ok row =>
         cm_numeric_stats e = Some (stats_dict row) /\ cm_numeric_stats_error e = None
     | true, Raise x =>
         cm_numeric_stats e = None /\ cm_numeric_stats_error e = Some (str_exn x)
     end.

(** ** Vocabulary for the properties of the handler as a whole *)

(** The character that opens and closes a quoted identifier in the SQL
    text of the helpers. *)
Definition double_quote : ascii := "034"%char.

(** The characters a validated name is made of. *)
Definition name_char (c : ascii) : bool :=
  ident_cont c || Ascii.eqb c "010"%char.

(** A trace with at most one connection, opened before any statement. *)
Definition one_session (tr : list event) : Prop :=
  tr = [] \/ exists dsn stmts, tr = Connect dsn :: map Execute stmts.

(** The statements of one pass of the column loop of a summary. *)
Definition column_statements (sch tab : string) (c : ColumnMeta) : list query :=
  [ColumnNullCount sch tab (col_name c); ColumnUniqueCount sch tab (col_name c)]
  ++ (if is_numeric_dtype (col_data_type c)
      then [NumericStats sch tab (col_name c)] else []).



(** The two counts of a column are answered. *)
Definition counts_answered (cur : Cursor) (sch tab : string) (col : string) : Prop :=
  (exists n, cur (ColumnNullCount sch tab col) = Ok n)
  /\ (exists u, cur (ColumnUniqueCount sch tab col) = Ok u).

(** The exception of the first of the two counts of a column that
    raises. *)
Definition counts_raise (cur : Cursor) (sch tab : string) (col : string) (e : exn) : Prop :=
  cur (ColumnNullCount sch tab col) = Raise e
  \/ ((exists n, cur (ColumnNullCount sch tab col) = Ok n)
      /\ cur (ColumnUniqueCount sch tab col) = Raise e).

(** A request leaves a postcondition on its result. *)
Definition returns {A} (P : A -> Prop) (m : M A) : Prop :=
  forall tr a tr', m tr = (Ok a, tr') -> P a.

(** A computation only adds statements to the trace. *)
Definition only_executes {A} (m : M A) : Prop :=
  forall tr, exists stmts, snd (m tr) = tr ++ map Execute stmts.

(** A cursor on the demo database whose distinct count of the column
    [name] is cancelled by the engine. *)
Definition timeout_cursor : Cursor :=
  fun q =>
    match q as q0 return result (rows_of q0) with
    | ColumnUniqueCount schema table col =>
        if String.eqb col "name"
        then Raise (DatabaseError "canceling statement due to statement timeout")
        else demo_cursor (ColumnUniqueCount schema table col)
    | ListTables => demo_cursor ListTables
    | GetColumns schema table => demo_cursor (GetColumns schema table)
    | ColumnNullCount schema table col => demo_cursor (ColumnNullCount schema table col)
    | NumericStats schema table col => demo_cursor (NumericStats schema table col)
    | TableRowCounts schema table col_list =>
        demo_cursor (TableRowCounts schema table col_list)
    | Histogram schema table col buckets => demo_cursor (Histogram schema table col buckets)
    | Preview schema table limit => demo_cursor (Preview schema table limit)
    end.

Definition timeout_env : Env :=
  {| DATABASE_URL := Some "postgresql://localhost/demo";
     psycopg_connect := fun _ => Ok timeout_cursor;
     int_of_str := demo_int;
     utcnow_isoformat := "2024-01-01T00:00:00" |}.

(** A catalog with a system table next to two user tables. *)
Definition catalog_db : database :=
  [ {| t_schema := "public"; t_name := "orders"; t_columns := [("id", "integer")];
       t_rows := [] |};
    {| t_schema := "pg_catalog"; t_name := "pg_class"; t_columns := [("oid", "oid")];
       t_rows := [] |};
    {| t_schema := "audit"; t_name := "log"; t_columns := [("at", "timestamp")];
       t_rows := [] |} ].

Definition catalog_env : Env :=
  {| DATABASE_URL := Some "postgresql://localhost/demo";
     psycopg_connect := fun _ => Ok (pg_cursor demo_width_bucket failing_aggregates catalog_db);
     int_of_str := demo_int;
     utcnow_isoformat := "2024-01-01T00:00:00" |}.

(** [ORDER BY 1,2]: each pair is at most the next. *)
Definition ordered_by_1_2 (l : list (string * string)) : Prop :=
  Sorted (fun a b => pair_leb a b = true) l.

(** The schemas the table list leaves out. *)
Definition system_schema (s : string) : bool :=
  String.eqb s "pg_catalog" || String.eqb s "information_schema".



(** A table with three equal rows. *)
Definition repeated_db : database :=
  [ {| t_schema := "public"; t_name := "r";
       t_columns := [("a", "integer"); ("b", "text")];
       t_rows := [ [SqlInt 1; SqlText "x"]; [SqlInt 1; SqlText "x"];
                   [SqlInt 1; SqlText "x"] ] |} ].



(** * Properties *)

(** ** Strings *)

Lemma str_truthy_false (s : string) : str_truthy s = false <-> s = EmptyString.
Proof. destruct s; simpl; split; congruence. Qed.

Lemma all_chars_app (cls : ascii -> bool) (a b : string) :
  all_chars cls (a +:+ b) = all_chars cls a && all_chars cls b.
Proof.
  induction a as [|c a IH]; simpl; [reflexivity|].
  rewrite IH. apply andb_assoc.
Qed.

Lemma startswith_app (s p : string) :
  startswith s p = true <-> exists r, s = p +:+ r.
Proof.
  revert s. induction p as [|a p IH]; intros s; simpl.
  - split; [intros _; exists s; reflexivity | reflexivity].
  - destruct s as [|b s]; simpl.
    + split; [discriminate | intros [r Hr]; discriminate].
    + rewrite andb_true_iff, Ascii.eqb_eq, IH. split.
      * intros [-> [r ->]]. exists r. reflexivity.
      * intros [r Hr]. injection Hr as -> ->. split; [reflexivity | exists r; reflexivity].
Qed.

(** [x in s] holds exactly when [s] is some text, then [x], then some text. *)
Lemma str_in_app (x s : string) :
  str_in x s = true <-> exists l r, s = l +:+ x +:+ r.
Proof.
  induction s as [|c s IH].
  - simpl. rewrite orb_false_r, startswith_app. split.
    + intros [r Hr]. exists EmptyString, r. exact Hr.
    + intros [l [r Hr]]. destruct l; simpl in Hr; [exists r; exact Hr | discriminate].
  - cbn [str_in]. rewrite orb_true_iff, startswith_app, IH. split.
    + intros [[r Hr] | [l [r Hr]]].
      * exists EmptyString, r. exact Hr.
      * exists (String c l), r. simpl. rewrite Hr. reflexivity.
    + intros [l [r Hr]]. destruct l as [|c' l]; simpl in Hr.
      * left. exists r. exact Hr.
      * right. injection Hr as -> ->. exists l, r. reflexivity.
Qed.

Lemma lower_app (a b : string) : lower (a +:+ b) = lower a +:+ lower b.
Proof. induction a as [|c a IH]; simpl; [reflexivity | rewrite IH; reflexivity]. Qed.

Lemma lower_app_inv (s a b : string) :
  lower s = a +:+ b -> exists s1 s2, s = s1 +:+ s2 /\ lower s1 = a /\ lower s2 = b.
Proof.
  revert s. induction a as [|c a IH]; intros s H.
  - exists EmptyString, s. auto.
  - destruct s as [|d s]; simpl in H; [discriminate|].
    injection H as Hc Hs. destruct (IH _ Hs) as [s1 [s2 [-> [<- <-]]]].
    exists (String d s1), s2. simpl. rewrite Hc. auto.
Qed.

(** ** The identifier pattern *)

(** What [[cls]*$] accepts from a position on: characters of the class up
    to the end of the subject, or up to a newline that ends it. *)
Lemma many_eol_spec (cls : ascii -> bool) (s : string) (at0 : bool) :
  re_run [Many cls; Eol] at0 s = true <->
  exists w, all_chars cls w = true /\ (s = w \/ s = w +:+ newline).
Proof.
  revert at0. induction s as [|a s IH]; intros at0.
  - simpl. split; [intros _; exists EmptyString; auto|reflexivity].
  - change (re_run [Many cls; Eol] at0 (String a s))
      with ((cls a && re_run [Many cls; Eol] false s)
            || (at_eol (String a s) && true)).
    rewrite orb_true_iff, andb_true_iff, IH, andb_true_r. split.
    + intros [[Ha [w [Hw Hs]]] | He].
      * exists (String a w). simpl. rewrite Ha, Hw. split; [reflexivity|].
        destruct Hs as [-> | ->]; auto.
      * exists EmptyString. split; [reflexivity|]. right.
        simpl in He. destruct s; [|discriminate].
        apply Ascii.eqb_eq in He. subst a. reflexivity.
    + intros [w [Hw Hs]]. destruct w as [|b w]; simpl in Hw.
      * right. destruct Hs as [Hs | Hs]; [discriminate|].
        injection Hs as -> ->. reflexivity.
      * left. apply andb_true_iff in Hw as [Hb Hw].
        destruct Hs as [Hs | Hs]; injection Hs as -> ->;
          (split; [exact Hb | exists w; auto]).
Qed.

(** [_IDENT_RE.match] accepts the identifiers of the grammar, and also an
    identifier followed by one newline. *)
Lemma ident_re_match_spec (s : string) :
  re_match _IDENT_RE s = true <->
  exists w, identifier_grammar w = true /\ (s = w \/ s = w +:+ newline).
Proof.
  unfold re_match, _IDENT_RE.
  destruct s as [|a s].
  - simpl. split; [discriminate|].
    intros [w [Hw [H | H]]]; destruct w; simpl in *; discriminate.
  - change (re_run [Bol; One ident_start; Many ident_cont; Eol] true (String a s))
      with (true && (ident_start a && re_run [Many ident_cont; Eol] false s)).
    rewrite andb_true_l, andb_true_iff, many_eol_spec. split.
    + intros [Ha [w [Hw Hs]]]. exists (String a w). simpl. rewrite Ha, Hw.
      split; [reflexivity|]. destruct Hs as [-> | ->]; auto.
    + intros [w [Hw Hs]]. destruct w as [|b w]; simpl in Hw; [discriminate|].
      apply andb_true_iff in Hw as [Hb Hw].
      destruct Hs as [Hs | Hs]; injection Hs as -> ->;
        (split; [exact Hb | exists w; auto]).
Qed.

(** The two outcomes of [_sanitize_ident]. *)
Lemma sanitize_ok_iff (name r : string) :
  _sanitize_ident name = Ok r <-> r = name /\ re_match _IDENT_RE name = true.
Proof.
  unfold _sanitize_ident.
  destruct name as [|a s] eqn:E; simpl str_truthy; simpl negb; cbv iota.
  - split; [discriminate|]. intros [_ H]. discriminate.
  - rewrite <- E. destruct (re_match _IDENT_RE name); simpl.
    + split; [intros H; injection H as <-; auto | intros [-> _]; reflexivity].
    + split; [discriminate | intros [_ H]; discriminate].
Qed.

Lemma sanitize_raise_iff (name : string) :
  (exists e, _sanitize_ident name = Raise e) <->
  name = EmptyString \/ re_match _IDENT_RE name = false.
Proof.
  unfold _sanitize_ident. destruct name as [|a s] eqn:E; simpl str_truthy; simpl negb; cbv iota.
  - split; [auto | intros _; eexists; reflexivity].
  - rewrite <- E. destruct (re_match _IDENT_RE name); simpl.
    + split; [intros [e H]; discriminate | intros [H | H]; [subst; discriminate | discriminate]].
    + split; [auto | intros _; eexists; reflexivity].
Qed.

(** A name that passes carries the message of neither error; a name that
    fails raises [ValueError]. *)
Lemma sanitize_raises_value_error (name : string) (e : exn) :
  _sanitize_ident name = Raise e ->
  e = ValueError "Empty identifier" \/ e = ValueError ("Invalid identifier: " +:+ name).
Proof.
  unfold _sanitize_ident.
  destruct (negb (str_truthy name)); [intros H; injection H as <-; auto|].
  destruct (negb (re_match _IDENT_RE name)); [intros H; injection H as <-; auto|discriminate].
Qed.

(** ** Splitting the [table] parameter *)

Lemma str_in_dot_cons (c : ascii) (s : string) :
  str_in "." (String c s) = Ascii.eqb c "."%char || str_in "." s.
Proof.
  cbn [str_in startswith]. rewrite andb_true_r, Ascii.eqb_sym. reflexivity.
Qed.

Lemma split1_dot_without_dot (s : string) :
  str_in "." s = false -> split1_dot s = [s].
Proof.
  induction s as [|c s IH]; [reflexivity|].
  rewrite str_in_dot_cons. intros H. apply orb_false_iff in H as [Hc Hs].
  simpl. rewrite Hc, (IH Hs). reflexivity.
Qed.

Lemma split1_dot_with_dot (s : string) :
  str_in "." s = true ->
  exists a b, split1_dot s = [a; b] /\ s = a +:+ "." +:+ b /\ str_in "." a = false.
Proof.
  induction s as [|c s IH]; [discriminate|].
  rewrite str_in_dot_cons. intros H. simpl.
  destruct (Ascii.eqb c "."%char) eqn:Hc.
  - apply Ascii.eqb_eq in Hc. subst c. exists EmptyString, s. auto.
  - simpl in H. destruct (IH H) as [a [b [Hs [E Ha]]]].
    rewrite Hs. exists (String c a), b. split; [reflexivity|]. split.
    + rewrite E at 1. reflexivity.
    + rewrite str_in_dot_cons, Hc, Ha. reflexivity.
Qed.

Lemma split_table_without_dot (tbl : string) :
  str_in "." tbl = false -> split_table tbl = Ok ("public", tbl).
Proof.
  intros H. unfold split_table. rewrite H. destruct tbl; reflexivity.
Qed.

Lemma split_table_with_dot (tbl : string) :
  str_in "." tbl = true ->
  exists sch tab, split_table tbl = Ok (sch, tab)
                  /\ tbl = sch +:+ "." +:+ tab /\ str_in "." sch = false.
Proof.
  intros H. unfold split_table. rewrite H.
  destruct (split1_dot_with_dot tbl H) as [a [b [Hs [E Ha]]]].
  rewrite Hs. exists a, b. auto.
Qed.

(** Unpacking never fails: the split has two parts whenever it is made. *)
Lemma split_table_total (tbl : string) : exists sch tab, split_table tbl = Ok (sch, tab).
Proof.
  destruct (str_in "." tbl) eqn:H.
  - destruct (split_table_with_dot tbl H) as [sch [tab [E _]]]. eauto.
  - exists "public", tbl. apply split_table_without_dot, H.
Qed.

Lemma split_table_public (name : string) :
  split_table ("public." +:+ name) = Ok ("public", name).
Proof. reflexivity. Qed.

(** ** Query parameters *)

Lemma qs_first_insert (q : gmap string (list string)) (key v default : string) :
  qs_first (<[key := [v]]> q) key default = v.
Proof. unfold qs_first. rewrite lookup_insert_eq. reflexivity. Qed.

Lemma qs_first_insert_ne (q : gmap string (list string)) (key key' : string)
    (vs : list string) (default : string) :
  key <> key' -> qs_first (<[key := vs]> q) key' default = qs_first q key' default.
Proof. intros H. unfold qs_first. rewrite lookup_insert_ne by exact H. reflexivity. Qed.

(** ** Routing *)

Lemma route_summary (env : Env) (req : request) :
  startswith (path req) "/api/summary" = true -> route env req = summary env req.
Proof.
  intros H. apply startswith_app in H as [r Hr].
  unfold route. rewrite Hr. reflexivity.
Qed.

Lemma route_histogram (env : Env) (req : request) :
  startswith (path req) "/api/histogram" = true -> route env req = histogram env req.
Proof.
  intros H. apply startswith_app in H as [r Hr].
  unfold route. rewrite Hr. reflexivity.
Qed.

Lemma route_preview (env : Env) (req : request) :
  startswith (path req) "/api/preview" = true -> route env req = preview env req.
Proof.
  intros H. apply startswith_app in H as [r Hr].
  unfold route. rewrite Hr. reflexivity.
Qed.

Lemma connect_session (env : Env) (dsn : string) (cur : Cursor) (tr : list event) :
  session env dsn cur -> _connect env tr = (Ok cur, tr ++ [Connect dsn]).
Proof.
  intros [Hd [Ht Hc]]. unfold _connect. rewrite Hd, Ht, Hc. reflexivity.
Qed.

(** ** Validation comes first *)

Lemma summary_invalid (env : Env) (req : request) (sch tab : string) (e : exn) :
  split_table (qs_first (qs req) "table" EmptyString) = Ok (sch, tab) ->
  first_invalid [sch; tab] = Some e ->
  summary env req [] = (Raise e, []).
Proof.
  intros Hs Hv. unfold summary, bind, lift. rewrite Hs. simpl in Hv.
  destruct (_sanitize_ident sch) as [sch'|e1] eqn:E1.
  - destruct (_sanitize_ident tab) as [tab'|e2] eqn:E2; [discriminate|].
    injection Hv as <-. reflexivity.
  - injection Hv as <-. reflexivity.
Qed.

Lemma histogram_invalid (env : Env) (req : request) (sch tab : string) (b : Z) (e : exn) :
  int_of_str env (qs_first (qs req) "buckets" "20") = Ok b ->
  split_table (qs_first (qs req) "table" EmptyString) = Ok (sch, tab) ->
  first_invalid [sch; tab; qs_first (qs req) "column" EmptyString] = Some e ->
  histogram env req [] = (Raise e, []).
Proof.
  intros Hb Hs Hv. unfold histogram, bind, lift. rewrite Hb, Hs. simpl in Hv.
  destruct (_sanitize_ident sch) as [sch'|e1] eqn:E1.
  - destruct (_sanitize_ident tab) as [tab'|e2] eqn:E2.
    + destruct (_sanitize_ident (qs_first (qs req) "column" EmptyString)) as [col'|e3] eqn:E3;
        [discriminate|]. injection Hv as <-. reflexivity.
    + injection Hv as <-. reflexivity.
  - injection Hv as <-. reflexivity.
Qed.

Lemma preview_invalid (env : Env) (req : request) (sch tab : string) (n : Z) (e : exn) :
  int_of_str env (qs_first (qs req) "limit" "10") = Ok n ->
  split_table (qs_first (qs req) "table" EmptyString) = Ok (sch, tab) ->
  first_invalid [sch; tab] = Some e ->
  preview env req [] = (Raise e, []).
Proof.
  intros Hb Hs Hv. unfold preview, bind, lift. rewrite Hb, Hs. simpl in Hv.
  destruct (_sanitize_ident sch) as [sch'|e1] eqn:E1.
  - destruct (_sanitize_ident tab) as [tab'|e2] eqn:E2; [discriminate|].
    injection Hv as <-. reflexivity.
  - injection Hv as <-. reflexivity.
Qed.

(** The names of a validated table reach the statements as they are. *)
Lemma summary_validated (env : Env) (req : request) (sch tab dsn : string) (cur : Cursor) :
  validated_table req sch tab -> session env dsn cur ->
  summary env req [] =
  (cols <- _get_columns cur sch tab ;;
   match cols with
   | [] => ret (_write_json (ErrorBody ("Tabla " +:+ sch +:+ "." +:+ tab +:+ " no encontrada")) 404)
   | _ :: _ =>
       counts <- _table_row_counts_and_dupes cur sch tab cols ;;
       col_metrics <- for_each (column_entry cur sch tab) cols ;;
       ret (_write_json (SummaryBody (sch +:+ "." +:+ tab) counts col_metrics) 200)
   end) [Connect dsn].
Proof.
  intros [Hs [H1 H2]] Hc. unfold summary. rewrite Hs.
  unfold bind at 1, lift at 1. unfold bind at 1, lift at 1. rewrite H1.
  unfold bind at 1, lift at 1. rewrite H2.
  unfold bind at 1. rewrite (connect_session env dsn cur [] Hc). reflexivity.
Qed.

(** ** Identifier validation (C1, C9, C10) *)

(** C1.  The validator does not reject every name outside the identifier
    grammar: a name made of an identifier followed by a newline is outside
    the grammar, yet [_sanitize_ident] returns it, and the summary of such
    a table name goes on to the database.  ([$] in [_IDENT_RE] also holds
    before a final newline.) *)
Theorem sanitize_ident_accepts_trailing_newline :
  identifier_grammar ("t" +:+ newline) = false
  /\ _sanitize_ident ("t" +:+ newline) = Ok ("t" +:+ newline)
  /\ do_GET demo_env {| path := "/api/summary"; qs := <["table" := ["t" +:+ newline]]> ∅ |}
     = (_write_json (ErrorBody ("Tabla public.t" +:+ newline +:+ " no encontrada")) 404,
        [Connect "postgresql://localhost/demo";
         Execute (GetColumns "public" ("t" +:+ newline))]).
Proof. repeat split; vm_compute; reflexivity. Qed.

(** Validation fails exactly on the empty name and on the names that are
    neither an identifier of the grammar nor such an identifier followed
    by one newline. *)
Lemma sanitize_ident_fails_iff (name : string) :
  (exists e, _sanitize_ident name = Raise e) <->
  ~ exists w, identifier_grammar w = true /\ (name = w \/ name = w +:+ newline).
Proof.
  rewrite sanitize_raise_iff, <- ident_re_match_spec. split.
  - intros [-> | H]; [intros H'; discriminate | rewrite H; discriminate].
  - intros H. right. destruct (re_match _IDENT_RE name); [exfalso; auto | reflexivity].
Qed.

(** Within the grammar's own alphabet the validator and the grammar
    agree: a name without a newline passes exactly when it is an
    identifier. *)
Lemma sanitize_ident_grammar (name : string) :
  str_in newline name = false ->
  (_sanitize_ident name = Ok name <-> identifier_grammar name = true).
Proof.
  intros Hn. rewrite sanitize_ok_iff, ident_re_match_spec. split.
  - intros [_ [w [Hw [-> | ->]]]]; [exact Hw|].
    exfalso. assert (str_in newline (w +:+ newline) = true) as H.
    { apply str_in_app. exists w, EmptyString. reflexivity. }
    congruence.
  - intros H. split; [reflexivity|]. exists name. auto.
Qed.

(** No statement is sent for a request whose schema, table or column
    fails validation: the trace of the request is empty. *)
Lemma invalid_identifier_no_query (env : Env) (req : request) (sch tab : string) (e : exn) :
  split_table (qs_first (qs req) "table" EmptyString) = Ok (sch, tab) ->
  (startswith (path req) "/api/summary" = true /\ first_invalid [sch; tab] = Some e)
  \/ (startswith (path req) "/api/histogram" = true
      /\ first_invalid [sch; tab; qs_first (qs req) "column" EmptyString] = Some e)
  \/ (startswith (path req) "/api/preview" = true /\ first_invalid [sch; tab] = Some e) ->
  snd (do_GET env req) = [].
Proof.
  intros Hs [[Hp Hv] | [[Hp Hv] | [Hp Hv]]]; unfold do_GET.
  - rewrite (route_summary _ _ Hp), (summary_invalid env req sch tab e Hs Hv). reflexivity.
  - rewrite (route_histogram _ _ Hp).
    destruct (int_of_str env (qs_first (qs req) "buckets" "20")) as [b|x] eqn:Hb.
    + rewrite (histogram_invalid env req sch tab b e Hb Hs Hv). reflexivity.
    + unfold histogram, bind, lift. rewrite Hb. reflexivity.
  - rewrite (route_preview _ _ Hp).
    destruct (int_of_str env (qs_first (qs req) "limit" "10")) as [b|x] eqn:Hb.
    + rewrite (preview_invalid env req sch tab b e Hb Hs Hv). reflexivity.
    + unfold preview, bind, lift. rewrite Hb. reflexivity.
Qed.

(** C9, as the handler has it.  A request to the summary, histogram or
    preview endpoint whose schema, table or column fails validation is
    answered with status 500 and an error message, and sends nothing to
    the database.  The message is the one of the validation error
    whenever the integer parameter of the endpoint ([buckets] for a
    histogram, [limit] for a preview) is accepted by [int]; when it is
    not, [int] raises first and its message is the one returned. *)
Theorem invalid_identifier_status_500 (env : Env) (req : request) (sch tab : string) (e : exn) :
  split_table (qs_first (qs req) "table" EmptyString) = Ok (sch, tab) ->
  (startswith (path req) "/api/summary" = true /\ first_invalid [sch; tab] = Some e)
  \/ (startswith (path req) "/api/histogram" = true
      /\ first_invalid [sch; tab; qs_first (qs req) "column" EmptyString] = Some e)
  \/ (startswith (path req) "/api/preview" = true /\ first_invalid [sch; tab] = Some e) ->
  (exists msg, do_GET env req = (_write_json (ErrorBody msg) 500, []))
  /\ ((startswith (path req) "/api/histogram" = true ->
       exists b, int_of_str env (qs_first (qs req) "buckets" "20") = Ok b)
      /\ (startswith (path req) "/api/preview" = true ->
          exists n, int_of_str env (qs_first (qs req) "limit" "10") = Ok n) ->
      do_GET env req = (_write_json (ErrorBody (str_exn e)) 500, [])).
Proof.
  intros Hs [[Hp Hv] | [[Hp Hv] | [Hp Hv]]]; unfold do_GET.
  - rewrite (route_summary _ _ Hp), (summary_invalid env req sch tab e Hs Hv).
    split; [eexists; reflexivity | intros _; reflexivity].
  - rewrite (route_histogram _ _ Hp).
    destruct (int_of_str env (qs_first (qs req) "buckets" "20")) as [b|x] eqn:Hb.
    + rewrite (histogram_invalid env req sch tab b e Hb Hs Hv).
      split; [eexists; reflexivity | intros _; reflexivity].
    + unfold histogram, bind, lift. rewrite Hb. split; [eexists; reflexivity|].
      intros [H _]. destruct (H Hp) as [b Hb']. discriminate.
  - rewrite (route_preview _ _ Hp).
    destruct (int_of_str env (qs_first (qs req) "limit" "10")) as [b|x] eqn:Hb.
    + rewrite (preview_invalid env req sch tab b e Hb Hs Hv).
      split; [eexists; reflexivity | intros _; reflexivity].
    + unfold preview, bind, lift. rewrite Hb. split; [eexists; reflexivity|].
      intros [_ H]. destruct (H Hp) as [b Hb']. discriminate.
Qed.

Lemma invalid_identifier_status_500_witness :
  (exists msg,
     do_GET demo_env {| path := "/api/histogram";
                        qs := <["table" := ["public.t"]]> (<["column" := ["id;drop"]]> ∅) |}
     = (_write_json (ErrorBody msg) 500, []))
  /\ do_GET demo_env {| path := "/api/histogram";
                        qs := <["table" := ["public.t"]]> (<["column" := ["id;drop"]]> ∅) |}
     = (_write_json (ErrorBody "Invalid identifier: id;drop") 500, []).
Proof.
  destruct (invalid_identifier_status_500 demo_env
              {| path := "/api/histogram";
                 qs := <["table" := ["public.t"]]> (<["column" := ["id;drop"]]> ∅) |}
              "public" "t" (ValueError "Invalid identifier: id;drop")) as [H1 H2].
  - reflexivity.
  - right. left. split; reflexivity.
  - split; [exact H1|]. apply H2. split; [intros _; exists 20; reflexivity|].
    intros H. discriminate.
Defined.

(** A name that fails validation next to a [buckets] value that [int]
    rejects: the answer is still 500 without any database event, with the
    message of [int]. *)
Example invalid_identifier_and_buckets :
  do_GET demo_env {| path := "/api/histogram";
                     qs := <["table" := ["public.t"]]>
                             (<["column" := ["id;drop"]]> (<["buckets" := ["ten"]]> ∅)) |}
  = (_write_json (ErrorBody "invalid literal for int() with base 10: 'ten'") 500, []).
Proof. vm_compute. reflexivity. Qed.

(** C9, as stated, fails: the summary of a table whose name starts with a
    digit is answered with a status outside the 4xx class. *)
Lemma invalid_identifier_not_4xx :
  _sanitize_ident "1t" = Raise (ValueError "Invalid identifier: 1t")
  /\ ~ is_4xx (status (fst (do_GET demo_env
                              {| path := "/api/summary"; qs := <["table" := ["1t"]]> ∅ |}))).
Proof.
  split; [reflexivity|].
  assert (status (fst (do_GET demo_env
            {| path := "/api/summary"; qs := <["table" := ["1t"]]> ∅ |})) = 500) as ->
    by (vm_compute; reflexivity).
  unfold is_4xx. lia.
Qed.

(** C10.  A name that passes validation is returned as it was given. *)
Theorem sanitize_ident_identity (name r : string) :
  _sanitize_ident name = Ok r -> r = name.
Proof. intros H. apply sanitize_ok_iff in H as [H _]. exact H. Qed.

Lemma sanitize_ident_identity_witness :
  _sanitize_ident "Orders_2024" = Ok "Orders_2024" /\ "Orders_2024" = "Orders_2024".
Proof.
  split; [reflexivity|].
  apply (sanitize_ident_identity "Orders_2024" "Orders_2024"). reflexivity.
Defined.

(** ** The [table] parameter (C8) *)

Lemma do_GET_table_only (env : Env) (p : string) (q : gmap string (list string)) (t1 t2 : string) :
  split_table t1 = split_table t2 ->
  do_GET env {| path := p; qs := <["table" := [t1]]> q |}
  = do_GET env {| path := p; qs := <["table" := [t2]]> q |}.
Proof.
  intros H. unfold do_GET, route, summary, histogram, preview. cbn [path qs].
  rewrite !qs_first_insert, !qs_first_insert_ne, H by discriminate. reflexivity.
Qed.

(** C8.  A [table] value with a dot is cut at its first dot into schema
    and table; a value without a dot gets the schema [public], and is then
    answered, on every path, as the same name prefixed with [public.]. *)
Theorem table_parameter_split (env : Env) (p : string) (q : gmap string (list string))
    (tbl : string) :
  (str_in "." tbl = true ->
     exists sch tab, split_table tbl = Ok (sch, tab)
                     /\ tbl = sch +:+ "." +:+ tab /\ str_in "." sch = false)
  /\ (str_in "." tbl = false ->
        split_table tbl = Ok ("public", tbl)
        /\ do_GET env {| path := p; qs := <["table" := [tbl]]> q |}
           = do_GET env {| path := p; qs := <["table" := ["public." +:+ tbl]]> q |}).
Proof.
  split.
  - apply split_table_with_dot.
  - intros H. split; [apply split_table_without_dot, H|].
    apply do_GET_table_only.
    rewrite split_table_public. apply split_table_without_dot, H.
Qed.

Lemma table_parameter_split_witness :
  (exists sch tab, split_table "sales.orders.v2" = Ok (sch, tab)
                   /\ "sales.orders.v2" = sch +:+ "." +:+ tab /\ str_in "." sch = false)
  /\ split_table "orders" = Ok ("public", "orders")
  /\ do_GET demo_env {| path := "/api/preview"; qs := <["table" := ["orders"]]> ∅ |}
     = do_GET demo_env {| path := "/api/preview"; qs := <["table" := ["public.orders"]]> ∅ |}.
Proof.
  split.
  - apply (proj1 (table_parameter_split demo_env "/api/preview" ∅ "sales.orders.v2")).
    reflexivity.
  - apply (proj2 (table_parameter_split demo_env "/api/preview" ∅ "orders")).
    reflexivity.
Defined.

(** ** The summary report (C2, C3, C4) *)

(** The events of one pass of the column loop. *)
Lemma column_entry_run (cur : Cursor) (sch tab : string) (c : ColumnMeta) (tr : list event) :
  forall nulls uniq,
    cur (ColumnNullCount sch tab (col_name c)) = Ok nulls ->
    cur (ColumnUniqueCount sch tab (col_name c)) = Ok uniq ->
    exists e,
      column_profiled cur sch tab c e
      /\ cm_nulls e = nulls /\ cm_unique e = uniq
      /\ column_entry cur sch tab c tr =
         (Ok e,
          if is_numeric_dtype (col_data_type c)
          then ((tr ++ [Execute (ColumnNullCount sch tab (col_name c))])
                  ++ [Execute (ColumnUniqueCount sch tab (col_name c))])
                 ++ [Execute (NumericStats sch tab (col_name c))]
          else (tr ++ [Execute (ColumnNullCount sch tab (col_name c))])
                 ++ [Execute (ColumnUniqueCount sch tab (col_name c))]).
Proof.
  intros nulls uniq Hn Hu.
  unfold column_entry, column_profiled, _column_null_count, _column_unique_count,
    _numeric_stats, try_except, bind, execute, ret.
  rewrite Hn, Hu.
  destruct (is_numeric_dtype (col_data_type c)).
  - destruct (cur (NumericStats sch tab (col_name c))) as [row|x];
      (eexists; split; [|split; [|split]]; [| | |reflexivity]; cbn; auto 10).
  - eexists. split; [|split; [|split]]; [| | |reflexivity]; cbn; auto 10.
Qed.

(** A failure of the numeric statistics of a column does not stop the
    loop: it ends whenever the two counts of every column are answered. *)
Lemma column_loop_run (cur : Cursor) (sch tab : string) (cols : list ColumnMeta) :
  Forall (fun c => (exists n, cur (ColumnNullCount sch tab (col_name c)) = Ok n)
                   /\ (exists u, cur (ColumnUniqueCount sch tab (col_name c)) = Ok u)) cols ->
  forall tr, exists entries tr',
    for_each (column_entry cur sch tab) cols tr = (Ok entries, tr')
    /\ Forall2 (column_profiled cur sch tab) cols entries.
Proof.
  induction 1 as [|c cols [[n Hn] [u Hu]] _ IH]; intros tr.
  - exists [], tr. split; [reflexivity | constructor].
  - destruct (column_entry_run cur sch tab c tr n u Hn Hu) as [e [Hp [_ [_ He]]]].
    cbn [for_each]. unfold bind at 1. rewrite He. cbv beta iota. unfold bind at 1.
    match goal with |- context [for_each _ cols ?t] => destruct (IH t) as [es [tr' [Hes HF]]] end.
    rewrite Hes. exists (e :: es), tr'.
    split; [reflexivity | constructor; assumption].
Qed.

(** The two optional fields of a profiled column are never both set. *)
Lemma column_profiled_exclusive (cur : Cursor) (sch tab : string)
    (c : ColumnMeta) (e : ColumnMetrics) :
  column_profiled cur sch tab c e ->
  cm_numeric_stats e = None \/ cm_numeric_stats_error e = None.
Proof.
  intros [_ [_ [_ [_ H]]]].
  destruct (is_numeric_dtype (col_data_type c)); [|tauto].
  destruct (cur (NumericStats sch tab (col_name c))); tauto.
Qed.

(** Binary64 conversion of an integer: what is needed of it here is that
    a count that is not zero does not become a zero. *)

Lemma digits2_pos_size (p : positive) : digits2_pos p = Pos.size p.
Proof. induction p as [p IH|p IH|]; simpl; [rewrite IH| rewrite IH|]; reflexivity. Qed.

Lemma Zdigits2_bounds (m : Z) : 0 < m -> 1 <= Zdigits2 m /\ 2 ^ (Zdigits2 m - 1) <= m.
Proof.
  destruct m as [|p|p]; try lia. intros _. simpl. split; [lia|].
  rewrite digits2_pos_size.
  pose proof (Z.log2_spec (Zpos p) eq_refl) as [H _].
  assert (Z.log2 (Zpos p) = Zpos (Pos.size p) - 1) as E.
  { destruct p; unfold Z.log2; cbn [Pos.size]; rewrite ?Pos2Z.inj_succ; lia. }
  rewrite E in H. exact H.
Qed.

Lemma shr_1_m (r : shr_record) : 0 <= shr_m r -> shr_m (shr_1 r) = Z.div2 (shr_m r).
Proof.
  destruct r as [m b s]. simpl. destruct m as [|p|p]; [reflexivity| |lia].
  destruct p; reflexivity.
Qed.

Lemma iter_shr_1_m (p : positive) (r : shr_record) :
  0 <= shr_m r -> shr_m (SpecFloat.iter_pos shr_1 p r) = Z.shiftr (shr_m r) (Zpos p).
Proof.
  revert r. induction p as [p IH|p IH|]; intros r Hr; simpl SpecFloat.iter_pos.
  - assert (0 <= shr_m (shr_1 r)) as H1
      by (rewrite shr_1_m by exact Hr; apply Z.div2_nonneg; exact Hr).
    assert (0 <= shr_m (SpecFloat.iter_pos shr_1 p (shr_1 r))) as H2
      by (rewrite IH by exact H1; apply Z.shiftr_nonneg; exact H1).
    rewrite IH by exact H2. rewrite IH by exact H1. rewrite shr_1_m by exact Hr.
    rewrite Z.div2_spec, !Z.shiftr_shiftr by lia. f_equal. lia.
  - assert (0 <= shr_m (SpecFloat.iter_pos shr_1 p r)) as H2
      by (rewrite IH by exact Hr; apply Z.shiftr_nonneg; exact Hr).
    rewrite IH by exact H2. rewrite IH by exact Hr.
    rewrite Z.shiftr_shiftr by lia. f_equal. lia.
  - rewrite shr_1_m by exact Hr. apply Z.div2_spec.
Qed.

Lemma shr_record_of_loc_m (m : Z) (l : location) : shr_m (shr_record_of_loc m l) = m.
Proof. destruct l as [|[| |]]; reflexivity. Qed.

(** Rounding shifts the mantissa right by the number of bits it has
    beyond the precision. *)
Lemma shr_fexp_spec (m e : Z) (l : location) :
  0 <= m ->
  shr_m (fst (shr_fexp binary64_prec binary64_emax m e l))
  = Z.shiftr m (Z.max 0 (fexp binary64_prec binary64_emax (Zdigits2 m + e) - e))
  /\ snd (shr_fexp binary64_prec binary64_emax m e l)
     = e + Z.max 0 (fexp binary64_prec binary64_emax (Zdigits2 m + e) - e).
Proof.
  intros Hm. unfold shr_fexp, shr.
  destruct (fexp binary64_prec binary64_emax (Zdigits2 m + e) - e) as [|p|p]; cbn [fst snd].
  - rewrite shr_record_of_loc_m. split; [reflexivity | lia].
  - rewrite iter_shr_1_m by (rewrite shr_record_of_loc_m; exact Hm).
    rewrite shr_record_of_loc_m. split; [f_equal; lia | lia].
  - rewrite shr_record_of_loc_m. split; [reflexivity | lia].
Qed.

Lemma shr_fexp_pos (m e : Z) (l : location) :
  0 < m -> -1073 <= e ->
  0 < shr_m (fst (shr_fexp binary64_prec binary64_emax m e l))
  /\ e <= snd (shr_fexp binary64_prec binary64_emax m e l).
Proof.
  intros Hm He. destruct (shr_fexp_spec m e l) as [H1 H2]; [lia|]. rewrite H1, H2.
  destruct (Zdigits2_bounds m Hm) as [Hd Hp].
  set (k := Z.max 0 (fexp binary64_prec binary64_emax (Zdigits2 m + e) - e)).
  assert (0 <= k <= Zdigits2 m - 1) as Hk.
  { unfold k, fexp, emin, binary64_prec, binary64_emax. lia. }
  split; [|lia]. rewrite Z.shiftr_div_pow2 by lia.
  apply Z.div_str_pos. split; [apply Z.pow_pos_nonneg; lia|].
  etransitivity; [|exact Hp]. apply Z.pow_le_mono_r; lia.
Qed.

Lemma round_nearest_even_ge (m : Z) (l : location) : m <= round_nearest_even m l.
Proof.
  unfold round_nearest_even. destruct l as [|[| |]]; try lia. destruct (Z.even m); lia.
Qed.

Lemma binary_round_aux_nonzero (sx : bool) (mx ex : Z) (lx : location) :
  0 < mx -> -1073 <= ex ->
  is_zero_float (binary_round_aux binary64_prec binary64_emax sx mx ex lx) = false.
Proof.
  intros Hm He. unfold binary_round_aux.
  destruct (shr_fexp_pos mx ex lx Hm He) as [H1 H2].
  destruct (shr_fexp binary64_prec binary64_emax mx ex lx) as [r1 e1]. cbn [fst snd] in H1, H2.
  pose proof (round_nearest_even_ge (shr_m r1) (loc_of_shr_record r1)) as Hr.
  destruct (shr_fexp_pos (round_nearest_even (shr_m r1) (loc_of_shr_record r1)) e1 loc_Exact)
    as [H3 _]; [lia | lia |].
  destruct (shr_fexp binary64_prec binary64_emax _ e1 loc_Exact) as [r2 e2]. cbn [fst] in H3.
  destruct (shr_m r2) as [|p|p]; try lia.
  destruct (e2 <=? binary64_emax - binary64_prec); reflexivity.
Qed.

(** [float(z)] is a zero only for [z = 0]. *)
Lemma float_nonzero (z : Z) : z <> 0 -> is_zero_float (float z) = false.
Proof.
  intros Hz. unfold float, binary_normalize.
  assert (forall s p,
            is_zero_float (binary_round binary64_prec binary64_emax s p 0) = false) as H.
  { intros s p. unfold binary_round, shl_align.
    destruct (fexp binary64_prec binary64_emax (Z.pos (digits2_pos p) + 0) - 0) eqn:E;
      apply binary_round_aux_nonzero; try lia.
    unfold fexp, emin, binary64_prec, binary64_emax in *. lia. }
  destruct z as [|p|p]; [congruence | apply H | apply H].
Qed.

Lemma int_truthy_float_div (total dupes : Z) :
  int_truthy total = true ->
  float_div (float dupes) (float total)
  = Ok (SFdiv binary64_prec binary64_emax (float dupes) (float total)).
Proof.
  unfold int_truthy, float_div. intros H.
  apply negb_true_iff, Z.eqb_neq in H. rewrite (float_nonzero total H). reflexivity.
Qed.

(** [_table_row_counts_and_dupes] raises only what its statement raises. *)
Lemma row_counts_run (cur : Cursor) (sch tab : string) (cols : list ColumnMeta)
    (tr : list event) :
  _table_row_counts_and_dupes cur sch tab cols tr =
  (match cur (TableRowCounts sch tab (map col_name cols)) with
   | Ok (total, dupes) =>
       Ok {| total_rows := total; duplicate_rows := dupes;
             duplicate_pct :=
               if int_truthy total
               then SFdiv binary64_prec binary64_emax (float dupes) (float total)
               else float_zero |}
   | Raise e => Raise e
   end,
   tr ++ [Execute (TableRowCounts sch tab (map col_name cols))]).
Proof.
  unfold _table_row_counts_and_dupes, bind, execute.
  destruct (cur (TableRowCounts sch tab (map col_name cols))) as [[total dupes]|e];
    [|reflexivity].
  destruct (int_truthy total) eqn:Ht; [|reflexivity].
  unfold lift. rewrite (int_truthy_float_div total dupes Ht). reflexivity.
Qed.

(** C3.  When the catalog has no column for a validated table, the summary
    is answered 404 and the only statement sent is the column lookup. *)
Theorem summary_table_not_found (env : Env) (req : request) (sch tab dsn : string)
    (cur : Cursor) :
  startswith (path req) "/api/summary" = true ->
  validated_table req sch tab ->
  session env dsn cur ->
  cur (GetColumns sch tab) = Ok [] ->
  do_GET env req =
  (_write_json (ErrorBody ("Tabla " +:+ sch +:+ "." +:+ tab +:+ " no encontrada")) 404,
   [Connect dsn; Execute (GetColumns sch tab)]).
Proof.
  intros Hp Hv Hc Hcols. unfold do_GET.
  rewrite (route_summary _ _ Hp), (summary_validated env req sch tab dsn cur Hv Hc).
  unfold _get_columns, bind, execute, ret. rewrite Hcols. reflexivity.
Qed.

Lemma summary_table_not_found_witness :
  do_GET demo_env {| path := "/api/summary"; qs := <["table" := ["public.missing"]]> ∅ |}
  = (_write_json (ErrorBody "Tabla public.missing no encontrada") 404,
     [Connect "postgresql://localhost/demo"; Execute (GetColumns "public" "missing")]).
Proof.
  apply (summary_table_not_found demo_env _ "public" "missing"
           "postgresql://localhost/demo" demo_cursor).
  - reflexivity.
  - repeat split; reflexivity.
  - repeat split; reflexivity.
  - reflexivity.
Defined.

(** C2.  When the catalog lists columns and the row counts and the two
    counts of every column are answered, the report is produced whatever
    the numeric statistics do: every column is profiled, a numeric column
    whose statistics fail carries the error text next to its counts, and
    no entry has both statistics and an error. *)
Theorem summary_absorbs_stats_failures (env : Env) (req : request) (sch tab dsn : string)
    (cur : Cursor) (rows : list (string * option string)) (total dupes : Z) :
  startswith (path req) "/api/summary" = true ->
  validated_table req sch tab ->
  session env dsn cur ->
  cur (GetColumns sch tab) = Ok rows ->
  rows <> [] ->
  cur (TableRowCounts sch tab (map fst rows)) = Ok (total, dupes) ->
  Forall (fun r => (exists n, cur (ColumnNullCount sch tab (fst r)) = Ok n)
                   /\ (exists u, cur (ColumnUniqueCount sch tab (fst r)) = Ok u)) rows ->
  exists counts entries tr,
    do_GET env req = (_write_json (SummaryBody (sch +:+ "." +:+ tab) counts entries) 200, tr)
    /\ Forall2 (column_profiled cur sch tab)
         (map (fun r => {| col_name := fst r; col_data_type := snd r |}) rows) entries
    /\ Forall (fun e => cm_numeric_stats e = None \/ cm_numeric_stats_error e = None) entries.
Proof.
  intros Hp Hv Hc Hcols Hne Hcounts Hall. unfold do_GET.
  rewrite (route_summary _ _ Hp), (summary_validated env req sch tab dsn cur Hv Hc).
  unfold _get_columns, execute. unfold bind at 1. unfold bind at 1. rewrite Hcols.
  unfold ret at 1.
  set (cols := map (fun r => {| col_name := fst r; col_data_type := snd r |}) rows).
  assert (map col_name cols = map fst rows) as Hnames.
  { unfold cols. rewrite map_map. reflexivity. }
  assert (Forall (fun c => (exists n, cur (ColumnNullCount sch tab (col_name c)) = Ok n)
                   /\ (exists u, cur (ColumnUniqueCount sch tab (col_name c)) = Ok u)) cols)
    as Hall'.
  { unfold cols. apply Forall_map. exact Hall. }
  destruct cols as [|c cols'] eqn:Ecols.
  { destruct rows; [congruence | discriminate]. }
  rewrite <- Ecols in *. unfold bind at 1. rewrite row_counts_run, Hnames, Hcounts.
  cbv beta iota. unfold bind at 1.
  match goal with |- context [for_each _ cols ?t] =>
    destruct (column_loop_run cur sch tab cols Hall' t) as [es [tr' [Hes HF]]] end.
  rewrite Hes. unfold ret.
  eexists _, es, tr'. split; [reflexivity|]. split; [exact HF|].
  clear - HF. induction HF as [|c e cs es Hce _ IH]; constructor; [|exact IH].
  exact (column_profiled_exclusive _ _ _ _ _ Hce).
Qed.

Lemma summary_absorbs_stats_failures_witness :
  exists counts entries tr,
    do_GET demo_env {| path := "/api/summary"; qs := <["table" := ["t"]]> ∅ |}
    = (_write_json (SummaryBody ("public" +:+ "." +:+ "t") counts entries) 200, tr)
    /\ Forall2 (column_profiled demo_cursor "public" "t")
         (map (fun r => {| col_name := fst r; col_data_type := snd r |})
            [("id", Some "integer"); ("name", Some "text")]) entries
    /\ Forall (fun e => cm_numeric_stats e = None \/ cm_numeric_stats_error e = None) entries.
Proof.
  apply (summary_absorbs_stats_failures demo_env _ "public" "t"
           "postgresql://localhost/demo" demo_cursor
           [("id", Some "integer"); ("name", Some "text")] 3 0).
  - reflexivity.
  - repeat split; reflexivity.
  - repeat split; reflexivity.
  - reflexivity.
  - discriminate.
  - reflexivity.
  - repeat constructor; eexists; reflexivity.
Defined.

(** The report of the demo table when the aggregates of its integer
    column fail: both columns are there with their counts, and [id]
    carries the error. *)
Example summary_with_failing_stats :
  fst (do_GET demo_env {| path := "/api/summary"; qs := <["table" := ["t"]]> ∅ |})
  = _write_json
      (SummaryBody "public.t"
         {| total_rows := 3; duplicate_rows := 0; duplicate_pct := float_zero |}
         [ {| cm_name := "id"; cm_data_type := Some "integer";
              cm_nulls := 1; cm_unique := 2; cm_numeric_stats := None;
              cm_numeric_stats_error := Some "function avg does not exist" |};
           {| cm_name := "name"; cm_data_type := Some "text";
              cm_nulls := 0; cm_unique := 2; cm_numeric_stats := None;
              cm_numeric_stats_error := None |} ]) 200.
Proof. vm_compute. reflexivity. Qed.

Lemma numeric_markers_lower (x : string) : In x numeric_markers -> lower x = x.
Proof.
  unfold numeric_markers. simpl.
  intros [<- | [<- | [<- | [<- | [<- | [<- | [<- | []]]]]]]]; reflexivity.
Qed.

(** The test of the source is containment with letter case ignored. *)
Lemma str_in_lower (x s : string) :
  lower x = x -> (str_in x (lower s) = true <-> contains_ignoring_case x s).
Proof.
  intros Hx. rewrite str_in_app. unfold contains_ignoring_case. split.
  - intros [l [r H]].
    destruct (lower_app_inv _ _ _ H) as [s1 [s23 [-> [_ H23]]]].
    destruct (lower_app_inv _ _ _ H23) as [s2 [s3 [-> [H2 _]]]].
    exists s1, s2, s3. rewrite Hx. auto.
  - intros [l [m [r [-> Hm]]]]. exists (lower l), (lower r).
    rewrite !lower_app, Hm, Hx. reflexivity.
Qed.

Lemma is_numeric_dtype_spec (dtype : option string) :
  is_numeric_dtype dtype = true <->
  exists x, In x numeric_markers /\ contains_ignoring_case x (default EmptyString dtype).
Proof.
  unfold is_numeric_dtype. rewrite existsb_exists. split.
  - intros [x [Hin H]]. exists x. split; [exact Hin|].
    apply (str_in_lower x _ (numeric_markers_lower x Hin)), H.
  - intros [x [Hin H]]. exists x. split; [exact Hin|].
    apply (str_in_lower x _ (numeric_markers_lower x Hin)), H.
Qed.

(** C4.  In one pass of the column loop the numeric statistics are asked
    of the database exactly when the data type contains one of the seven
    markers, letter case ignored.  A column of type [integer] has them
    asked, and carries them when the engine answers; a column of type
    [text], like any column for which they are not asked, carries neither
    statistics nor an error. *)
Theorem numeric_stats_attempted_iff (cur : Cursor) (sch tab : string) (c : ColumnMeta)
    (nulls uniq : Z) :
  cur (ColumnNullCount sch tab (col_name c)) = Ok nulls ->
  cur (ColumnUniqueCount sch tab (col_name c)) = Ok uniq ->
  exists e tr,
    column_entry cur sch tab c [] = (Ok e, tr)
    /\ (In (Execute (NumericStats sch tab (col_name c))) tr <->
        exists x, In x numeric_markers
                  /\ contains_ignoring_case x (default EmptyString (col_data_type c)))
    /\ (~ In (Execute (NumericStats sch tab (col_name c))) tr ->
        cm_numeric_stats e = None /\ cm_numeric_stats_error e = None)
    /\ (col_data_type c = Some "integer" ->
        In (Execute (NumericStats sch tab (col_name c))) tr
        /\ forall row, cur (NumericStats sch tab (col_name c)) = Ok row ->
             cm_numeric_stats e = Some (stats_dict row) /\ cm_numeric_stats_error e = None)
    /\ (col_data_type c = Some "text" ->
        ~ In (Execute (NumericStats sch tab (col_name c))) tr
        /\ cm_numeric_stats e = None /\ cm_numeric_stats_error e = None).
Proof.
  intros Hn Hu.
  destruct (column_entry_run cur sch tab c [] nulls uniq Hn Hu) as [e [Hp [_ [_ He]]]].
  exists e. eexists. split; [exact He|].
  destruct Hp as [_ [_ [_ [_ Hnum]]]].
  rewrite <- is_numeric_dtype_spec.
  destruct (is_numeric_dtype (col_data_type c)) eqn:Hd.
  - assert (In (Execute (NumericStats sch tab (col_name c)))
              ((([] ++ [Execute (ColumnNullCount sch tab (col_name c))])
                  ++ [Execute (ColumnUniqueCount sch tab (col_name c))])
                 ++ [Execute (NumericStats sch tab (col_name c))])) as Hin.
    { apply in_or_app. right. left. reflexivity. }
    split; [tauto|]. split; [tauto|]. split.
    + intros _. split; [exact Hin|]. intros row Hrow. rewrite Hrow in Hnum. exact Hnum.
    + intros Ht. rewrite Ht in Hd. discriminate.
  - assert (~ In (Execute (NumericStats sch tab (col_name c)))
              (([] ++ [Execute (ColumnNullCount sch tab (col_name c))])
                 ++ [Execute (ColumnUniqueCount sch tab (col_name c))])) as Hnin.
    { simpl. intros [H | [H | []]]; discriminate. }
    split; [split; [tauto | discriminate]|]. split; [intros _; exact Hnum|]. split.
    + intros Ht. rewrite Ht in Hd. discriminate.
    + intros _. split; [exact Hnin | exact Hnum].
Qed.

Lemma numeric_stats_attempted_iff_witness :
  exists e tr,
    column_entry demo_cursor "public" "t"
      {| col_name := "id"; col_data_type := Some "integer" |} [] = (Ok e, tr)
    /\ In (Execute (NumericStats "public" "t" "id")) tr
    /\ cm_numeric_stats_error e = Some "function avg does not exist".
Proof.
  destruct (numeric_stats_attempted_iff demo_cursor "public" "t"
              {| col_name := "id"; col_data_type := Some "integer" |} 1 2
              eq_refl eq_refl) as [e [tr [He [_ [_ [Hint _]]]]]].
  exists e, tr. split; [exact He|]. split; [exact (proj1 (Hint eq_refl))|].
  vm_compute in He. injection He as <- _. reflexivity.
Defined.

(** The classification on the type names of the design document. *)
Example classification_examples :
  is_numeric_dtype (Some "integer") = true
  /\ is_numeric_dtype (Some "text") = false
  /\ is_numeric_dtype (Some "DOUBLE PRECISION") = true
  /\ is_numeric_dtype (Some "non_numeric_decimal_code") = true
  /\ is_numeric_dtype None = false.
Proof. repeat split; reflexivity. Qed.

(** ** Row statistics (C5) *)






(** The demo table: three rows, none repeated. *)
Example row_stats_demo :
  fst (_table_row_counts_and_dupes demo_cursor "public" "t"
         [ {| col_name := "id"; col_data_type := Some "integer" |};
           {| col_name := "name"; col_data_type := Some "text" |} ] [])
  = Ok {| total_rows := 3; duplicate_rows := 0; duplicate_pct := float_zero |}.
Proof. vm_compute. reflexivity. Qed.

(** Three equal rows: two of three are duplicates, and the percentage is
    the binary64 number nearest to 2/3, 6004799503160661 * 2^-53. *)
Example row_stats_two_thirds :
  fst (_table_row_counts_and_dupes
         (pg_cursor demo_width_bucket failing_aggregates repeated_db) "public" "r"
         [ {| col_name := "a"; col_data_type := Some "integer" |};
           {| col_name := "b"; col_data_type := Some "text" |} ] [])
  = Ok {| total_rows := 3; duplicate_rows := 2;
          duplicate_pct := S754_finite false 6004799503160661 (-53) |}.
Proof. vm_compute. reflexivity. Qed.

(** An empty table: the guard gives 0 where the quotient has no value. *)
Example row_stats_empty_table :
  fst (_table_row_counts_and_dupes
         (pg_cursor demo_width_bucket failing_aggregates
            [ {| t_schema := "public"; t_name := "e";
                 t_columns := [("a", "integer"); ("b", "text")]; t_rows := [] |} ])
         "public" "e"
         [ {| col_name := "a"; col_data_type := Some "integer" |};
           {| col_name := "b"; col_data_type := Some "text" |} ] [])
  = Ok {| total_rows := 0; duplicate_rows := 0; duplicate_pct := float_zero |}
  /\ float_div (float 0) (float 0) = Raise (ZeroDivisionError "float division by zero").
Proof. split; vm_compute; reflexivity. Qed.

(** ** Histograms (C6, C7) *)

















(** The example of the design document, end to end. *)
Example histogram_demo_request :
  do_GET demo_env
    {| path := "/api/histogram";
       qs := <["table" := ["public.t"]]> (<["column" := ["id"]]> (<["buckets" := ["2"]]> ∅)) |}
  = (_write_json (HistogramBody "public.t" "id" 2 demo_histogram) 200,
     [Connect "postgresql://localhost/demo"; Execute (Histogram "public" "t" "id" 2)]).
Proof. vm_compute. reflexivity. Qed.

(** A histogram is produced whenever the column exists, holds numbers and
    nulls only, and the bucketing function answers for each value. *)
Lemma histogram_produced (wb : Q -> Q -> Q -> Z -> result Z)
    (ag : list sqlval -> result stats_row) (d : database) (sch tab col : string)
    (buckets : Z) (tr : list event) (cells : list sqlval) (v : Q) (vs : list Q)
    (bkts : list Z) :
  column_cells d sch tab col = Some cells ->
  numeric_values (non_null cells) = Some (v :: vs) ->
  map_result (fun x => wb x (fold_right Qmin v vs) (fold_right Qmax v vs) buckets) (v :: vs)
  = Ok bkts ->
  exists data,
    _histogram (pg_cursor wb ag d) sch tab col buckets tr
    = (Ok data, tr ++ [Execute (Histogram sch tab col buckets)]).
Proof.
  intros Hc Hv Hb. unfold _histogram, bind, execute, ret. cbn [pg_cursor].
  unfold on_column, sql_histogram. rewrite Hc, Hv, Hb. eexists. reflexivity.
Qed.

(** * Further properties of the handler *)

(** ** What a validated name is made of *)

Lemma all_chars_impl (p q : ascii -> bool) (s : string) :
  (forall c, p c = true -> q c = true) -> all_chars p s = true -> all_chars q s = true.
Proof.
  intros Hpq. induction s as [|c s IH]; simpl; [reflexivity|].
  intros H. apply andb_true_iff in H as [Hc Hs]. rewrite (Hpq c Hc), (IH Hs). reflexivity.
Qed.

Lemma ident_start_cont (c : ascii) : ident_start c = true -> ident_cont c = true.
Proof.
  unfold ident_start, ident_cont. intros H.
  apply orb_true_iff in H as [H | H]; [|rewrite H; apply orb_true_r].
  apply orb_true_iff in H as [H | H]; rewrite H; [reflexivity|].
  rewrite orb_true_r. reflexivity.
Qed.

Lemma identifier_grammar_chars (w : string) :
  identifier_grammar w = true -> all_chars ident_cont w = true.
Proof.
  destruct w as [|c w]; simpl; [discriminate|]. intros H.
  apply andb_true_iff in H as [Hc Hw]. rewrite (ident_start_cont c Hc), Hw. reflexivity.
Qed.

(** [c in s] for a character: some character of [s] is [c]. *)
Lemma str_in_char (c : ascii) (s : string) :
  str_in (String c EmptyString) s = true ->
  forall p, all_chars p s = true -> p c = true.
Proof.
  intros H p Hp. apply str_in_app in H as [l [r ->]].
  rewrite all_chars_app in Hp. apply andb_true_iff in Hp as [_ Hp].
  simpl in Hp. apply andb_true_iff in Hp as [Hp _]. exact Hp.
Qed.

Lemma sanitized_all_name_chars (name r : string) :
  _sanitize_ident name = Ok r -> all_chars name_char r = true.
Proof.
  intros H. apply sanitize_ok_iff in H as [-> H].
  apply ident_re_match_spec in H as [w [Hw Hs]].
  pose proof (identifier_grammar_chars w Hw) as Hc.
  assert (all_chars name_char w = true) as Hn.
  { apply (all_chars_impl ident_cont); [|exact Hc].
    intros c Hcc. unfold name_char. rewrite Hcc. reflexivity. }
  destruct Hs as [-> | ->]; [exact Hn|].
  rewrite all_chars_app, Hn. reflexivity.
Qed.

Lemma name_chars_exclude (c : ascii) (s : string) :
  name_char c = false -> all_chars name_char s = true ->
  str_in (String c EmptyString) s = false.
Proof.
  intros Hc Hall. destruct (str_in (String c EmptyString) s) eqn:E; [|reflexivity].
  pose proof (str_in_char _ _ E name_char Hall) as Hq. congruence.
Qed.

(** Every character of a name that passes validation is an ASCII letter,
    a digit, an underscore or a newline.  So the name holds no double
    quote, which would end the quoted identifier it is interpolated into,
    and no dot. *)
Theorem sanitized_name_chars (name r : string) :
  _sanitize_ident name = Ok r ->
  all_chars name_char r = true
  /\ str_in (String double_quote EmptyString) r = false
  /\ str_in "." r = false.
Proof.
  intros H. pose proof (sanitized_all_name_chars name r H) as Hall.
  split; [exact Hall|].
  split; apply name_chars_exclude; try exact Hall; reflexivity.
Qed.

Lemma sanitized_name_chars_witness :
  all_chars name_char "customers_demo" = true
  /\ str_in (String double_quote EmptyString) "customers_demo" = false
  /\ str_in "." "customers_demo" = false.
Proof.
  apply (sanitized_name_chars "customers_demo" "customers_demo"). reflexivity.
Defined.

Lemma split1_dot_join (a b : string) :
  str_in "." a = false -> split1_dot (a +:+ "." +:+ b) = [a; b].
Proof.
  induction a as [|c a IH]; [reflexivity|].
  rewrite str_in_dot_cons. intros H. apply orb_false_iff in H as [Hc Ha].
  change (split1_dot (String c a +:+ "." +:+ b))
    with (if Ascii.eqb c "."%char then [EmptyString; a +:+ "." +:+ b]
          else match split1_dot (a +:+ "." +:+ b) with
               | [] => []
               | x :: rest => String c x :: rest
               end).
  rewrite Hc, (IH Ha). reflexivity.
Qed.

(** The label [schema.table] of a response names the table again: cut at
    its first dot it gives back the two validated names. *)
Theorem table_label_round_trip (sch tab sch' tab' : string) :
  _sanitize_ident sch = Ok sch' ->
  _sanitize_ident tab = Ok tab' ->
  split_table (sch' +:+ "." +:+ tab') = Ok (sch, tab).
Proof.
  intros Hs Ht.
  pose proof (name_chars_exclude "."%char sch' eq_refl (sanitized_all_name_chars sch sch' Hs))
    as Hdot.
  apply sanitize_ok_iff in Hs as [-> _]. apply sanitize_ok_iff in Ht as [-> _].
  assert (str_in "." (sch +:+ "." +:+ tab) = true) as Hin.
  { apply str_in_app. exists sch, tab. reflexivity. }
  unfold split_table. rewrite Hin, (split1_dot_join sch tab Hdot). reflexivity.
Qed.

Lemma table_label_round_trip_witness :
  split_table ("sales" +:+ "." +:+ "orders") = Ok ("sales", "orders").
Proof.
  apply (table_label_round_trip "sales" "orders" "sales" "orders"); reflexivity.
Defined.

(** ** Query parameters *)

Lemma qs_first_absent (q : gmap string (list string)) (key default : string) :
  q !! key = None -> qs_first (<[key := [default]]> q) key default = qs_first q key default.
Proof. intros H. unfold qs_first. rewrite lookup_insert_eq, H. reflexivity. Qed.

Lemma qs_first_head (q : gmap string (list string)) (key k : string)
    (v : string) (rest : list string) (default : string) :
  qs_first (<[key := v :: rest]> q) k default = qs_first (<[key := [v]]> q) k default.
Proof.
  unfold qs_first. destruct (decide (key = k)) as [-> | Hne].
  - rewrite !lookup_insert_eq. reflexivity.
  - rewrite !lookup_insert_ne by exact Hne. reflexivity.
Qed.

(** The handler reads its request through [path] and the first values of
    four parameters only. *)
Lemma do_GET_reads (env : Env) (p : string) (q1 q2 : gmap string (list string)) :
  qs_first q1 "table" EmptyString = qs_first q2 "table" EmptyString ->
  qs_first q1 "column" EmptyString = qs_first q2 "column" EmptyString ->
  qs_first q1 "buckets" "20" = qs_first q2 "buckets" "20" ->
  qs_first q1 "limit" "10" = qs_first q2 "limit" "10" ->
  do_GET env {| path := p; qs := q1 |} = do_GET env {| path := p; qs := q2 |}.
Proof.
  intros Ht Hc Hb Hl. unfold do_GET, route, summary, histogram, preview. cbn [path qs].
  rewrite Ht, Hc, Hb, Hl. reflexivity.
Qed.

(** A request without [buckets] and without [limit] is answered as the
    same request with [buckets=20] and [limit=10]. *)
Theorem default_buckets_and_limit (env : Env) (p : string) (q : gmap string (list string)) :
  q !! "buckets" = None -> q !! "limit" = None ->
  do_GET env {| path := p; qs := q |}
  = do_GET env {| path := p; qs := <["buckets" := ["20"]]> (<["limit" := ["10"]]> q) |}.
Proof.
  intros Hb Hl. apply do_GET_reads.
  - rewrite !qs_first_insert_ne by discriminate. reflexivity.
  - rewrite !qs_first_insert_ne by discriminate. reflexivity.
  - rewrite qs_first_insert. unfold qs_first. rewrite Hb. reflexivity.
  - rewrite qs_first_insert_ne by discriminate. rewrite qs_first_insert.
    unfold qs_first. rewrite Hl. reflexivity.
Qed.

Lemma default_buckets_and_limit_witness :
  do_GET demo_env {| path := "/api/histogram";
                     qs := <["table" := ["t"]]> (<["column" := ["id"]]> ∅) |}
  = do_GET demo_env
      {| path := "/api/histogram";
         qs := <["buckets" := ["20"]]>
                 (<["limit" := ["10"]]> (<["table" := ["t"]]> (<["column" := ["id"]]> ∅))) |}.
Proof.
  apply (default_buckets_and_limit demo_env "/api/histogram"
           (<["table" := ["t"]]> (<["column" := ["id"]]> ∅))); reflexivity.
Defined.

(** When a parameter is given several times, only its first value counts:
    the request is answered as if the others were not there. *)
Theorem repeated_parameter_first_value (env : Env) (p : string)
    (q : gmap string (list string)) (key v : string) (rest : list string) :
  do_GET env {| path := p; qs := <[key := v :: rest]> q |}
  = do_GET env {| path := p; qs := <[key := [v]]> q |}.
Proof. apply do_GET_reads; apply qs_first_head. Qed.

(** ** Errors that come before the database *)

(** A [buckets] or [limit] value that [int] rejects ends the request with
    status 500 and the message of [int], before the names are validated
    and without any database event. *)
Theorem integer_parameter_error (env : Env) (req : request) (e : exn) :
  (startswith (path req) "/api/histogram" = true
   /\ int_of_str env (qs_first (qs req) "buckets" "20") = Raise e)
  \/ (startswith (path req) "/api/preview" = true
      /\ int_of_str env (qs_first (qs req) "limit" "10") = Raise e) ->
  do_GET env req = (_write_json (ErrorBody (str_exn e)) 500, []).
Proof.
  intros [[Hp He] | [Hp He]]; unfold do_GET.
  - rewrite (route_histogram _ _ Hp). unfold histogram, bind, lift. rewrite He. reflexivity.
  - rewrite (route_preview _ _ Hp). unfold preview, bind, lift. rewrite He. reflexivity.
Qed.

Lemma integer_parameter_error_witness :
  do_GET demo_env {| path := "/api/preview";
                     qs := <["table" := ["t"]]> (<["limit" := ["ten"]]> ∅) |}
  = (_write_json (ErrorBody "invalid literal for int() with base 10: 'ten'") 500, []).
Proof.
  apply (integer_parameter_error demo_env _
           (ValueError "invalid literal for int() with base 10: 'ten'")).
  right. split; reflexivity.
Defined.

(** A request to the summary, histogram or preview endpoint that names no
    table is answered with status 500 and the message [Empty identifier],
    without any database event. *)
Theorem missing_table_parameter (env : Env) (req : request) :
  qs req !! "table" = None ->
  startswith (path req) "/api/summary" = true
  \/ (startswith (path req) "/api/histogram" = true
      /\ exists b, int_of_str env (qs_first (qs req) "buckets" "20") = Ok b)
  \/ (startswith (path req) "/api/preview" = true
      /\ exists n, int_of_str env (qs_first (qs req) "limit" "10") = Ok n) ->
  do_GET env req = (_write_json (ErrorBody "Empty identifier") 500, []).
Proof.
  intros Hq H.
  assert (qs_first (qs req) "table" EmptyString = EmptyString) as Ht.
  { unfold qs_first. rewrite Hq. reflexivity. }
  assert (split_table (qs_first (qs req) "table" EmptyString) = Ok ("public", EmptyString))
    as Hs by (rewrite Ht; reflexivity).
  unfold do_GET. destruct H as [Hp | [[Hp [b Hb]] | [Hp [b Hb]]]].
  - rewrite (route_summary _ _ Hp),
      (summary_invalid env req "public" EmptyString (ValueError "Empty identifier") Hs eq_refl).
    reflexivity.
  - rewrite (route_histogram _ _ Hp),
      (histogram_invalid env req "public" EmptyString b (ValueError "Empty identifier")
         Hb Hs eq_refl).
    reflexivity.
  - rewrite (route_preview _ _ Hp),
      (preview_invalid env req "public" EmptyString b (ValueError "Empty identifier")
         Hb Hs eq_refl).
    reflexivity.
Qed.

Lemma missing_table_parameter_witness :
  do_GET demo_env {| path := "/api/summary"; qs := ∅ |}
  = (_write_json (ErrorBody "Empty identifier") 500, []).
Proof.
  apply (missing_table_parameter demo_env {| path := "/api/summary"; qs := ∅ |}).
  - reflexivity.
  - left. reflexivity.
Defined.

(** ** Postconditions and traces of computations *)

Lemma returns_ret {A} (P : A -> Prop) (a : A) : P a -> returns P (ret a).
Proof. intros H tr a' tr' E. injection E as <- _. exact H. Qed.

Lemma returns_bind {A B} (P : B -> Prop) (m : M A) (k : A -> M B) :
  (forall a, returns P (k a)) -> returns P (bind m k).
Proof.
  intros H tr b tr' E. unfold bind in E.
  destruct (m tr) as [[a|e] tr1]; [|discriminate]. exact (H a tr1 b tr' E).
Qed.

Lemma only_executes_ret {A} (a : A) : only_executes (ret a).
Proof. intros tr. exists []. simpl. rewrite app_nil_r. reflexivity. Qed.

Lemma only_executes_lift {A} (r : result A) : only_executes (lift r).
Proof. intros tr. exists []. simpl. rewrite app_nil_r. reflexivity. Qed.

Lemma only_executes_execute (cur : Cursor) (q : query) : only_executes (execute cur q).
Proof. intros tr. exists [q]. reflexivity. Qed.

Lemma only_executes_bind {A B} (m : M A) (k : A -> M B) :
  only_executes m -> (forall a, only_executes (k a)) -> only_executes (bind m k).
Proof.
  intros Hm Hk tr. destruct (Hm tr) as [s1 H1]. unfold bind.
  destruct (m tr) as [[a|e] tr1]; simpl in H1; subst tr1.
  - destruct (Hk a (tr ++ map Execute s1)) as [s2 H2]. exists (s1 ++ s2).
    rewrite H2, map_app, app_assoc. reflexivity.
  - exists s1. reflexivity.
Qed.

Lemma only_executes_try {A} (m : M A) (h : exn -> M A) :
  only_executes m -> (forall e, only_executes (h e)) -> only_executes (try_except m h).
Proof.
  intros Hm Hh tr. destruct (Hm tr) as [s1 H1]. unfold try_except.
  destruct (m tr) as [[a|e] tr1]; simpl in H1; subst tr1.
  - exists s1. reflexivity.
  - destruct (Hh e (tr ++ map Execute s1)) as [s2 H2]. exists (s1 ++ s2).
    rewrite H2, map_app, app_assoc. reflexivity.
Qed.

Lemma only_executes_for_each {A B} (f : A -> M B) (l : list A) :
  (forall x, only_executes (f x)) -> only_executes (for_each f l).
Proof.
  intros Hf. induction l as [|x l IH]; cbn [for_each].
  - apply only_executes_ret.
  - apply only_executes_bind; [apply Hf|]. intros y.
    apply only_executes_bind; [exact IH|]. intros ys. apply only_executes_ret.
Qed.

Ltac only_executes_tac :=
  repeat first
    [ match goal with
      | |- only_executes (execute ?c ?q) => exact (only_executes_execute c q)
      | |- only_executes (_column_null_count ?c ?s ?t ?n) =>
          exact (only_executes_execute c (ColumnNullCount s t n))
      | |- only_executes (_column_unique_count ?c ?s ?t ?n) =>
          exact (only_executes_execute c (ColumnUniqueCount s t n))
      end
    | apply only_executes_ret
    | apply only_executes_lift
    | apply only_executes_for_each; intros ?
    | apply only_executes_try; [|intros ?]
    | apply only_executes_bind; [|intros ?]
    | match goal with
      | |- only_executes (let '(_, _) := ?x in _) => destruct x
      | |- only_executes (match ?x with _ => _ end) => destruct x
      | |- only_executes (if ?x then _ else _) => destruct x
      end
    | progress cbv zeta ].

Lemma column_entry_only_executes (cur : Cursor) (sch tab : string) (c : ColumnMeta) :
  only_executes (column_entry cur sch tab c).
Proof.
  unfold column_entry, _numeric_stats. only_executes_tac.
Qed.

(** ** One session per request *)

Lemma one_session_lift {A B} (r : result A) (k : A -> M B) :
  (forall a, one_session (snd (k a []))) -> one_session (snd (bind (lift r) k [])).
Proof.
  intros H. unfold bind, lift. destruct r as [a|e]; [apply H | left; reflexivity].
Qed.

Lemma one_session_connect {B} (env : Env) (body : Cursor -> M B) :
  (forall cur, only_executes (body cur)) ->
  one_session (snd (bind (_connect env) body [])).
Proof.
  intros H. unfold bind, _connect, raise.
  destruct (DATABASE_URL env) as [dsn|]; [|left; reflexivity].
  destruct (str_truthy dsn); [|left; reflexivity].
  destruct (psycopg_connect env dsn) as [cur|e]; right; exists dsn.
  - destruct (H cur ([] ++ [Connect dsn])) as [stmts Hs]. exists stmts. exact Hs.
  - exists []. reflexivity.
Qed.

Lemma route_one_session (env : Env) (req : request) : one_session (snd (route env req [])).
Proof.
  unfold route.
  repeat match goal with |- context [if ?c then _ else _] => destruct c end;
    try (left; reflexivity).
  - apply one_session_connect. intros cur. unfold _list_tables. only_executes_tac.
  - unfold summary. apply one_session_lift. intros [sch tab].
    apply one_session_lift. intros sch'. apply one_session_lift. intros tab'.
    apply one_session_connect. intros cur.
    unfold _get_columns, _table_row_counts_and_dupes. only_executes_tac.
  - unfold histogram. apply one_session_lift. intros b.
    apply one_session_lift. intros [sch tab].
    apply one_session_lift. intros sch'. apply one_session_lift. intros tab'.
    apply one_session_lift. intros col'.
    apply one_session_connect. intros cur. unfold _histogram. only_executes_tac.
  - unfold preview. apply one_session_lift. intros b.
    apply one_session_lift. intros [sch tab].
    apply one_session_lift. intros sch'. apply one_session_lift. intros tab'.
    apply one_session_connect. intros cur. only_executes_tac.
Qed.

(** Whatever the request and the environment, the database events of a
    request are none at all, or one connection followed by statements: no
    statement is sent without a connection, and no request connects
    twice. *)
Theorem request_one_session (env : Env) (req : request) :
  one_session (snd (do_GET env req)).
Proof.
  unfold do_GET. pose proof (route_one_session env req) as H.
  destruct (route env req []) as [[r|e] tr]; exact H.
Qed.

(** ** Status codes *)

Lemma route_returns (env : Env) (req : request) :
  returns (fun r => (status r = 200 /\ forall msg, body r <> ErrorBody msg)
                    \/ (status r = 404 /\ exists msg, body r = ErrorBody msg))
    (route env req).
Proof.
  unfold route, summary, histogram, preview.
  repeat first
    [ apply returns_ret
    | apply returns_bind; intros ?
    | match goal with
      | |- returns _ (let '(_, _) := ?x in _) => destruct x
      | |- returns _ (match ?x with _ => _ end) => destruct x
      | |- returns _ (if ?x then _ else _) => destruct x
      end ];
    cbn [status body _write_json];
    solve [ left; split; [reflexivity | discriminate]
          | right; split; [reflexivity | eexists; reflexivity] ].
Qed.

(** Every response is 200 with a body that is not an error, or 404 or 500
    with an error message: the handler has no other status, and no 4xx
    but 404. *)
Theorem response_statuses (env : Env) (req : request) :
  (status (fst (do_GET env req)) = 200
   /\ forall msg, body (fst (do_GET env req)) <> ErrorBody msg)
  \/ ((status (fst (do_GET env req)) = 404 \/ status (fst (do_GET env req)) = 500)
      /\ exists msg, body (fst (do_GET env req)) = ErrorBody msg).
Proof.
  unfold do_GET. pose proof (route_returns env req []) as H.
  destruct (route env req []) as [[r|e] tr]; cbn [fst].
  - destruct (H r tr eq_refl) as [H200 | [H404 Hb]]; [left; exact H200|].
    right. split; [left; exact H404 | exact Hb].
  - right. split; [right; reflexivity | eexists; reflexivity].
Qed.

(** ** Without a connection string *)

Lemma connect_unset (env : Env) (tr : list event) :
  DATABASE_URL env = None \/ DATABASE_URL env = Some EmptyString ->
  _connect env tr = (Raise (RuntimeError "DATABASE_URL env var is not set"), tr).
Proof. unfold _connect. intros [-> | ->]; reflexivity. Qed.

Lemma route_tables (env : Env) (req : request) :
  startswith (path req) "/api/tables" = true ->
  route env req = (cur <- _connect env ;; tables <- _list_tables cur ;;
                   ret (_write_json (TablesBody tables) 200)).
Proof.
  intros H. apply startswith_app in H as [r Hr].
  unfold route. rewrite Hr. reflexivity.
Qed.

Lemma no_event_lift {A B} (r : result A) (k : A -> M B) :
  (forall a, snd (k a []) = []) -> snd (bind (lift r) k []) = [].
Proof. intros H. unfold bind, lift. destruct r as [a|e]; [apply H | reflexivity]. Qed.

Lemma no_event_connect {B} (env : Env) (body : Cursor -> M B) :
  DATABASE_URL env = None \/ DATABASE_URL env = Some EmptyString ->
  snd (bind (_connect env) body []) = [].
Proof. intros H. unfold bind. rewrite (connect_unset env [] H). reflexivity. Qed.

(** When [DATABASE_URL] is unset or empty, no request reaches the driver:
    the trace of every request is empty.  The table list, and the summary
    of any validated table, are answered with status 500 and the message
    of [_connect]. *)
Theorem missing_database_url (env : Env) (req : request) :
  DATABASE_URL env = None \/ DATABASE_URL env = Some EmptyString ->
  snd (do_GET env req) = []
  /\ (startswith (path req) "/api/tables" = true
      \/ (startswith (path req) "/api/summary" = true
          /\ exists sch tab, validated_table req sch tab) ->
      fst (do_GET env req)
      = _write_json (ErrorBody "DATABASE_URL env var is not set") 500).
Proof.
  intros Hd. split.
  - assert (snd (route env req []) = []) as H.
    { unfold route, summary, histogram, preview.
      repeat match goal with |- context [if ?c then _ else _] => destruct c end;
        try reflexivity;
        repeat first
          [ apply (no_event_connect env _ Hd)
          | apply no_event_lift; intros ?
          | match goal with |- snd ((let '(_, _) := ?x in _) _) = _ => destruct x end ]. }
    unfold do_GET. destruct (route env req []) as [[r|e] tr]; exact H.
  - intros [Hp | [Hp [sch [tab [Hs [H1 H2]]]]]]; unfold do_GET.
    + rewrite (route_tables _ _ Hp). unfold bind at 1. rewrite (connect_unset env [] Hd).
      reflexivity.
    + rewrite (route_summary _ _ Hp). unfold summary. rewrite Hs.
      unfold bind at 1, lift at 1. unfold bind at 1, lift at 1. rewrite H1.
      unfold bind at 1, lift at 1. rewrite H2.
      unfold bind at 1. rewrite (connect_unset env [] Hd). reflexivity.
Qed.

Lemma missing_database_url_witness :
  snd (do_GET {| DATABASE_URL := None; psycopg_connect := fun _ => Ok demo_cursor;
                 int_of_str := demo_int; utcnow_isoformat := "2024-01-01T00:00:00" |}
         {| path := "/api/tables"; qs := ∅ |}) = []
  /\ fst (do_GET {| DATABASE_URL := None; psycopg_connect := fun _ => Ok demo_cursor;
                    int_of_str := demo_int; utcnow_isoformat := "2024-01-01T00:00:00" |}
            {| path := "/api/tables"; qs := ∅ |})
     = _write_json (ErrorBody "DATABASE_URL env var is not set") 500.
Proof.
  destruct (missing_database_url
              {| DATABASE_URL := None; psycopg_connect := fun _ => Ok demo_cursor;
                 int_of_str := demo_int; utcnow_isoformat := "2024-01-01T00:00:00" |}
              {| path := "/api/tables"; qs := ∅ |}) as [H1 H2].
  - left. reflexivity.
  - split; [exact H1|]. apply H2. left. reflexivity.
Defined.

(** ** The statements of a summary *)

Lemma column_entry_trace (cur : Cursor) (sch tab : string) (c : ColumnMeta) (tr : list event) :
  counts_answered cur sch tab (col_name c) ->
  exists e, column_entry cur sch tab c tr
            = (Ok e, tr ++ map Execute (column_statements sch tab c)).
Proof.
  intros [[n Hn] [u Hu]].
  destruct (column_entry_run cur sch tab c tr n u Hn Hu) as [e [_ [_ [_ He]]]].
  exists e. rewrite He. unfold column_statements.
  destruct (is_numeric_dtype (col_data_type c)); cbn [map app];
    rewrite <- ?app_assoc; reflexivity.
Qed.

Lemma column_loop_trace (cur : Cursor) (sch tab : string) (cols : list ColumnMeta) :
  Forall (fun c => counts_answered cur sch tab (col_name c)) cols ->
  forall tr, exists es,
    for_each (column_entry cur sch tab) cols tr
    = (Ok es, tr ++ map Execute (flat_map (column_statements sch tab) cols)).
Proof.
  induction 1 as [|c cols Hc _ IH]; intros tr.
  - exists []. cbn. rewrite app_nil_r. reflexivity.
  - destruct (column_entry_trace cur sch tab c tr Hc) as [e He].
    cbn [for_each]. unfold bind at 1. rewrite He. cbv beta iota. unfold bind at 1.
    destruct (IH (tr ++ map Execute (column_statements sch tab c))) as [es Hes].
    rewrite Hes. exists (e :: es). unfold ret. cbn [flat_map].
    rewrite map_app, app_assoc. reflexivity.
Qed.

(** The statements of a summary that succeeds, in order: the column
    lookup, the row counts, then for each column of the catalog its null
    count, its distinct count and, for a numeric type, its statistics;
    that is two statements plus two or three per column, on one
    connection. *)
Theorem summary_statements (env : Env) (req : request) (sch tab dsn : string)
    (cur : Cursor) (rows : list (string * option string)) (total dupes : Z) :
  startswith (path req) "/api/summary" = true ->
  validated_table req sch tab ->
  session env dsn cur ->
  cur (GetColumns sch tab) = Ok rows ->
  rows <> [] ->
  cur (TableRowCounts sch tab (map fst rows)) = Ok (total, dupes) ->
  Forall (fun r => counts_answered cur sch tab (fst r)) rows ->
  snd (do_GET env req)
  = Connect dsn
    :: map Execute
         (GetColumns sch tab
          :: TableRowCounts sch tab (map fst rows)
          :: flat_map (column_statements sch tab)
               (map (fun r => {| col_name := fst r; col_data_type := snd r |}) rows)).
Proof.
  intros Hp Hv Hc Hcols Hne Hcounts Hall. unfold do_GET.
  rewrite (route_summary _ _ Hp), (summary_validated env req sch tab dsn cur Hv Hc).
  unfold _get_columns, execute. unfold bind at 1. unfold bind at 1. rewrite Hcols.
  unfold ret at 1.
  set (cols := map (fun r => {| col_name := fst r; col_data_type := snd r |}) rows).
  assert (map col_name cols = map fst rows) as Hnames.
  { unfold cols. rewrite map_map. reflexivity. }
  assert (Forall (fun c => counts_answered cur sch tab (col_name c)) cols) as Hall'.
  { unfold cols. apply Forall_map. exact Hall. }
  destruct cols as [|c cols'] eqn:Ecols.
  { destruct rows; [congruence | discriminate]. }
  rewrite <- Ecols in *. unfold bind at 1. rewrite row_counts_run, Hnames, Hcounts.
  cbv beta iota. unfold bind at 1.
  match goal with |- context [for_each _ cols ?t] =>
    destruct (column_loop_trace cur sch tab cols Hall' t) as [es Hes] end.
  rewrite Hes. reflexivity.
Qed.

Lemma summary_statements_witness :
  snd (do_GET demo_env {| path := "/api/summary"; qs := <["table" := ["t"]]> ∅ |})
  = Connect "postgresql://localhost/demo"
    :: map Execute
         (GetColumns "public" "t"
          :: TableRowCounts "public" "t" (map fst [("id", Some "integer"); ("name", Some "text")])
          :: flat_map (column_statements "public" "t")
               (map (fun r => {| col_name := fst r; col_data_type := snd r |})
                  [("id", Some "integer"); ("name", Some "text")])).
Proof.
  apply (summary_statements demo_env _ "public" "t" "postgresql://localhost/demo"
           demo_cursor [("id", Some "integer"); ("name", Some "text")] 3 0).
  - reflexivity.
  - repeat split; reflexivity.
  - repeat split; reflexivity.
  - reflexivity.
  - discriminate.
  - reflexivity.
  - repeat constructor; eexists; reflexivity.
Defined.

(** ** Failures that a summary does not absorb *)

Lemma column_entry_raises (cur : Cursor) (sch tab : string) (c : ColumnMeta)
    (e : exn) (tr : list event) :
  counts_raise cur sch tab (col_name c) e ->
  fst (column_entry cur sch tab c tr) = Raise e.
Proof.
  unfold column_entry, _column_null_count, _column_unique_count, bind, execute.
  intros [Hn | [[n Hn] Hu]]; rewrite Hn; [reflexivity|]. rewrite Hu. reflexivity.
Qed.

Lemma column_loop_raises (cur : Cursor) (sch tab : string)
    (before : list ColumnMeta) (c : ColumnMeta) (after : list ColumnMeta) (e : exn) :
  Forall (fun c' => counts_answered cur sch tab (col_name c')) before ->
  counts_raise cur sch tab (col_name c) e ->
  forall tr, fst (for_each (column_entry cur sch tab) (before ++ c :: after) tr) = Raise e.
Proof.
  intros Hb Hc. induction Hb as [|c' before Hc' _ IH]; intros tr.
  - cbn [app for_each]. unfold bind at 1.
    pose proof (column_entry_raises cur sch tab c e tr Hc) as H.
    destruct (column_entry cur sch tab c tr) as [[x|x] tr1]; simpl in H; [discriminate|].
    injection H as ->. reflexivity.
  - cbn [app for_each]. unfold bind at 1.
    destruct (column_entry_trace cur sch tab c' tr Hc') as [x Hx]. rewrite Hx.
    cbv beta iota. unfold bind at 1.
    specialize (IH (tr ++ map Execute (column_statements sch tab c'))).
    destruct (for_each (column_entry cur sch tab) (before ++ c :: after)
                (tr ++ map Execute (column_statements sch tab c'))) as [[y|y] tr2];
      simpl in IH; [discriminate|]. injection IH as ->. reflexivity.
Qed.

(** Only the numeric statistics are absorbed.  When the null count or the
    distinct count of some column raises, the columns before it having
    been counted, the whole summary is answered with status 500 and the
    message of that exception: no partial report is returned. *)
Theorem summary_count_failure (env : Env) (req : request) (sch tab dsn : string)
    (cur : Cursor) (before : list (string * option string)) (r : string * option string)
    (after : list (string * option string)) (total dupes : Z) (e : exn) :
  startswith (path req) "/api/summary" = true ->
  validated_table req sch tab ->
  session env dsn cur ->
  cur (GetColumns sch tab) = Ok (before ++ r :: after) ->
  cur (TableRowCounts sch tab (map fst (before ++ r :: after))) = Ok (total, dupes) ->
  Forall (fun r' => counts_answered cur sch tab (fst r')) before ->
  counts_raise cur sch tab (fst r) e ->
  fst (do_GET env req) = _write_json (ErrorBody (str_exn e)) 500.
Proof.
  intros Hp Hv Hc Hcols Hcounts Hb Hr. unfold do_GET.
  rewrite (route_summary _ _ Hp), (summary_validated env req sch tab dsn cur Hv Hc).
  unfold _get_columns, execute. unfold bind at 1. unfold bind at 1. rewrite Hcols.
  unfold ret at 1. cbv beta iota.
  set (mk := fun r0 : string * option string =>
               {| col_name := fst r0; col_data_type := snd r0 |}).
  rewrite map_app. cbn [map].
  assert (map col_name (map mk before ++ mk r :: map mk after)
          = map fst (before ++ r :: after)) as Hnames.
  { rewrite !map_app. cbn [map]. rewrite !map_map. reflexivity. }
  assert (Forall (fun c' => counts_answered cur sch tab (col_name c')) (map mk before))
    as Hb' by (apply Forall_map; exact Hb).
  pose proof (column_loop_raises cur sch tab (map mk before) (mk r) (map mk after) e Hb' Hr)
    as Hloop.
  destruct (map mk before ++ mk r :: map mk after) as [|c0 cols0] eqn:Ecols.
  { destruct (map mk before); discriminate. }
  rewrite <- Ecols in *. unfold bind at 1. rewrite row_counts_run, Hnames, Hcounts.
  cbv beta iota. unfold bind at 1.
  match goal with |- context [for_each _ _ ?t] => specialize (Hloop t) end.
  destruct (for_each _ _ _) as [[y|y] tr2]; simpl in Hloop; [discriminate|].
  injection Hloop as ->. reflexivity.
Qed.

Lemma summary_count_failure_witness :
  fst (do_GET timeout_env {| path := "/api/summary"; qs := <["table" := ["t"]]> ∅ |})
  = _write_json (ErrorBody "canceling statement due to statement timeout") 500.
Proof.
  apply (summary_count_failure timeout_env _ "public" "t" "postgresql://localhost/demo"
           timeout_cursor [("id", Some "integer")] ("name", Some "text") [] 3 0
           (DatabaseError "canceling statement due to statement timeout")).
  - reflexivity.
  - repeat split; reflexivity.
  - repeat split; reflexivity.
  - reflexivity.
  - reflexivity.
  - repeat constructor; eexists; reflexivity.
  - right. split; [exists 0; reflexivity | reflexivity].
Defined.

(** ** What a histogram counts *)







(** ** Row previews *)

Lemma preview_validated (env : Env) (req : request) (sch tab dsn : string) (cur : Cursor)
    (n : Z) :
  validated_table req sch tab -> session env dsn cur ->
  int_of_str env (qs_first (qs req) "limit" "10") = Ok n ->
  preview env req [] =
  (res <- execute cur (Preview sch tab n) ;;
   ret (_write_json (PreviewBody (fst res) (snd res)) 200)) [Connect dsn].
Proof.
  intros [Hs [H1 H2]] Hc Hn. unfold preview. rewrite Hn, Hs.
  unfold bind at 1, lift at 1. unfold bind at 1, lift at 1.
  unfold bind at 1, lift at 1. rewrite H1.
  unfold bind at 1, lift at 1. rewrite H2.
  unfold bind at 1. rewrite (connect_session env dsn cur [] Hc). reflexivity.
Qed.

(** A preview sends one statement.  With a limit from 0 up to the
    greatest bigint it returns the first [limit] rows of the table, never
    more, with the column names of the table in order; a limit that is
    negative or beyond the bigint range is answered with status 500. *)
Theorem preview_rows_bounded (env : Env) (req : request) (sch tab dsn : string)
    (wb : Q -> Q -> Q -> Z -> result Z) (ag : list sqlval -> result stats_row)
    (d : database) (t : table_data) (n : Z) :
  startswith (path req) "/api/preview" = true ->
  validated_table req sch tab ->
  session env dsn (pg_cursor wb ag d) ->
  int_of_str env (qs_first (qs req) "limit" "10") = Ok n ->
  find_table d sch tab = Some t ->
  snd (do_GET env req) = [Connect dsn; Execute (Preview sch tab n)]
  /\ (0 <= n < 2 ^ 63 ->
      fst (do_GET env req)
      = _write_json (PreviewBody (map fst (t_columns t))
                       (firstn (Z.to_nat n) (t_rows t))) 200
      /\ Z.of_nat (length (firstn (Z.to_nat n) (t_rows t))) <= n)
  /\ (n < 0 \/ 2 ^ 63 <= n ->
      status (fst (do_GET env req)) = 500
      /\ exists msg, body (fst (do_GET env req)) = ErrorBody msg).
Proof.
  intros Hp Hv Hc Hn Ht. unfold do_GET.
  rewrite (route_preview _ _ Hp), (preview_validated env req sch tab dsn _ n Hv Hc Hn).
  unfold bind, execute, ret. cbn [pg_cursor]. rewrite Ht. unfold sql_preview.
  destruct ((n <? - 2 ^ 63) || (2 ^ 63 <=? n)) eqn:Hrange.
  - split; [reflexivity|]. split.
    + intros Hn'. apply orb_true_iff in Hrange as [H | H];
        [apply Z.ltb_lt in H | apply Z.leb_le in H]; lia.
    + intros _. split; [reflexivity | eexists; reflexivity].
  - apply orb_false_iff in Hrange as [H1 H2].
    apply Z.ltb_ge in H1. apply Z.leb_gt in H2.
    destruct (n <? 0) eqn:Hneg.
    + apply Z.ltb_lt in Hneg. split; [reflexivity|]. split; [lia|].
      intros _. split; [reflexivity | eexists; reflexivity].
    + apply Z.ltb_ge in Hneg. split; [reflexivity|]. split; [|lia].
      intros _. split; [reflexivity|].
      pose proof (firstn_le_length (Z.to_nat n) (t_rows t)). lia.
Qed.

Lemma preview_rows_bounded_witness :
  snd (do_GET demo_env {| path := "/api/preview";
                          qs := <["table" := ["t"]]> (<["limit" := ["2"]]> ∅) |})
  = [Connect "postgresql://localhost/demo"; Execute (Preview "public" "t" 2)]
  /\ fst (do_GET demo_env {| path := "/api/preview";
                             qs := <["table" := ["t"]]> (<["limit" := ["2"]]> ∅) |})
     = _write_json (PreviewBody ["id"; "name"]
                      [[SqlInt 1; SqlText "a"]; [SqlInt 2; SqlText "a"]]) 200.
Proof.
  destruct (preview_rows_bounded demo_env
              {| path := "/api/preview";
                 qs := <["table" := ["t"]]> (<["limit" := ["2"]]> ∅) |}
              "public" "t" "postgresql://localhost/demo"
              demo_width_bucket failing_aggregates demo_db
              {| t_schema := "public"; t_name := "t";
                 t_columns := [("id", "integer"); ("name", "text")];
                 t_rows := [ [SqlInt 1; SqlText "a"];
                             [SqlInt 2; SqlText "a"];
                             [SqlNull; SqlText "b"] ] |} 2)
    as [Htr [Hok _]].
  - reflexivity.
  - repeat split; reflexivity.
  - repeat split; reflexivity.
  - reflexivity.
  - reflexivity.
  - split; [exact Htr|]. apply Hok. lia.
Defined.

(** ** The table list *)

Lemma insert_sorted_In (a x : string * string) (l : list (string * string)) :
  In x (insert_sorted a l) <-> x = a \/ In x l.
Proof.
  induction l as [|b l IH]; simpl.
  - split; [intros [<- | []]; auto | intros [-> | []]; auto].
  - destruct (pair_leb a b); simpl.
    + split; [intros [<- | H]; auto | intros [-> | H]; auto].
    + rewrite IH. split; [intros [<- | [-> | H]]; auto | intros [-> | [<- | H]]; auto].
Qed.

Lemma order_by_1_2_In (x : string * string) (l : list (string * string)) :
  In x (order_by_1_2 l) <-> In x l.
Proof.
  induction l as [|a l IH]; [reflexivity|].
  unfold order_by_1_2 in *. cbn [fold_right]. rewrite insert_sorted_In, IH.
  simpl. split; intros [H | H]; auto.
Qed.

Lemma pair_leb_total (a b : string * string) : pair_leb a b = false -> pair_leb b a = true.
Proof.
  unfold pair_leb, String.leb.
  rewrite (String.compare_antisym (fst b) (fst a)), (String.compare_antisym (snd b) (snd a)).
  destruct (String.compare (fst a) (fst b)); simpl; try discriminate; [|reflexivity].
  destruct (String.compare (snd a) (snd b)); simpl; try discriminate. reflexivity.
Qed.

Lemma insert_sorted_ordered (a : string * string) (l : list (string * string)) :
  ordered_by_1_2 l -> ordered_by_1_2 (insert_sorted a l).
Proof.
  unfold ordered_by_1_2. induction l as [|b l IH]; simpl; intros H.
  - constructor; constructor.
  - destruct (pair_leb a b) eqn:Hab.
    + constructor; [exact H | constructor; exact Hab].
    + inversion H as [|? ? Hs Hhd]; subst. constructor; [apply IH, Hs|].
      destruct l as [|c l]; simpl.
      * constructor. apply pair_leb_total, Hab.
      * destruct (pair_leb a c); constructor;
          [apply pair_leb_total, Hab | inversion Hhd; assumption].
Qed.

Lemma order_by_1_2_ordered (l : list (string * string)) : ordered_by_1_2 (order_by_1_2 l).
Proof.
  induction l as [|a l IH]; [constructor|].
  unfold order_by_1_2 in *. cbn [fold_right]. apply insert_sorted_ordered, IH.
Qed.

(** The table list is answered from one statement; it names exactly the
    tables of the database outside the schemas [pg_catalog] and
    [information_schema], ordered by schema and then by table. *)
Theorem tables_listing (env : Env) (req : request) (dsn : string)
    (wb : Q -> Q -> Q -> Z -> result Z) (ag : list sqlval -> result stats_row)
    (d : database) :
  startswith (path req) "/api/tables" = true ->
  session env dsn (pg_cursor wb ag d) ->
  exists tables,
    do_GET env req = (_write_json (TablesBody tables) 200, [Connect dsn; Execute ListTables])
    /\ ordered_by_1_2 tables
    /\ forall s t, In (s, t) tables <->
         system_schema s = false
         /\ exists tb, In tb d /\ t_schema tb = s /\ t_name tb = t.
Proof.
  intros Hp Hc. exists (sql_list_tables d). split; [|split].
  - unfold do_GET. rewrite (route_tables _ _ Hp). unfold bind at 1.
    rewrite (connect_session env dsn _ [] Hc). reflexivity.
  - apply order_by_1_2_ordered.
  - intros s t. unfold sql_list_tables. rewrite order_by_1_2_In, in_map_iff. split.
    + intros [tb [E Hin]]. injection E as <- <-.
      apply filter_In in Hin as [Hin Hf]. apply negb_true_iff in Hf.
      split; [exact Hf | exists tb; auto].
    + intros [Hs [tb [Hin [<- <-]]]]. exists tb. split; [reflexivity|].
      apply filter_In. split; [exact Hin|]. apply negb_true_iff. exact Hs.
Qed.

Lemma tables_listing_witness :
  exists tables,
    do_GET catalog_env {| path := "/api/tables"; qs := ∅ |}
    = (_write_json (TablesBody tables) 200,
       [Connect "postgresql://localhost/demo"; Execute ListTables])
    /\ ordered_by_1_2 tables
    /\ forall s t, In (s, t) tables <->
         system_schema s = false
         /\ exists tb, In tb catalog_db /\ t_schema tb = s /\ t_name tb = t.
Proof.
  apply (tables_listing catalog_env {| path := "/api/tables"; qs := ∅ |}
           "postgresql://localhost/demo" demo_width_bucket failing_aggregates catalog_db).
  - reflexivity.
  - repeat split; reflexivity.
Defined.

Example tables_listing_demo :
  fst (do_GET catalog_env {| path := "/api/tables"; qs := ∅ |})
  = _write_json (TablesBody [("audit", "log"); ("public", "orders")]) 200.
Proof. vm_compute. reflexivity. Qed.

(** ** The counts of a column against the rows of its table *)










(** ** When a summary is answered 404 *)

(** Over the tables of a database, the summary of a validated table is
    answered 404 exactly when the catalog has no column for it: the table
    is absent, or it is there without any column.  A table with columns is
    answered 200, or 500 when a statement fails. *)
Theorem summary_not_found_iff (env : Env) (req : request) (sch tab dsn : string)
    (wb : Q -> Q -> Q -> Z -> result Z) (ag : list sqlval -> result stats_row)
    (d : database) :
  startswith (path req) "/api/summary" = true ->
  validated_table req sch tab ->
  session env dsn (pg_cursor wb ag d) ->
  (status (fst (do_GET env req)) = 404
   <-> forall t, find_table d sch tab = Some t -> t_columns t = []).
Proof.
  intros Hp Hv Hc. unfold do_GET.
  rewrite (route_summary _ _ Hp), (summary_validated env req sch tab dsn _ Hv Hc).
  unfold _get_columns, execute. unfold bind at 1. unfold bind at 1.
  cbn [pg_cursor]. unfold sql_columns, ret at 1.
  destruct (find_table d sch tab) as [t|].
  - destruct (t_columns t) as [|c cols] eqn:Ecols.
    + cbn. split; [intros _ t' H; injection H as <-; exact Ecols | reflexivity].
    + cbn [map]. cbv beta iota.
      match goal with |- context [bind ?m ?k ?t0] =>
        assert (returns (fun r => status r = 200) (bind m k)) as Hret
          by (repeat (apply returns_bind; intros ?); apply returns_ret; reflexivity);
        specialize (Hret t0); destruct (bind m k t0) as [[r|e] tr1]
      end.
      * cbn [fst]. rewrite (Hret r tr1 eq_refl). split; [discriminate|].
        intros H. specialize (H t eq_refl). congruence.
      * cbn. split; [discriminate|]. intros H. specialize (H t eq_refl). congruence.
  - cbn. split; [intros _ t' H; discriminate | reflexivity].
Qed.

Lemma summary_not_found_iff_witness :
  status (fst (do_GET demo_env {| path := "/api/summary"; qs := <["table" := ["t"]]> ∅ |}))
  = 404
  <-> forall t, find_table demo_db "public" "t" = Some t -> t_columns t = [].
Proof.
  apply (summary_not_found_iff demo_env
           {| path := "/api/summary"; qs := <["table" := ["t"]]> ∅ |}
           "public" "t" "postgresql://localhost/demo" demo_width_bucket failing_aggregates
           demo_db).
  - reflexivity.
  - repeat split; reflexivity.
  - repeat split; reflexivity.
Defined.

(** ** The numeric classification is by containment *)

Lemma str_app_assoc (a b c : string) : (a +:+ b) +:+ c = a +:+ (b +:+ c).
Proof.
  induction a as [|x a IH]; [reflexivity|].
  change (String x ((a +:+ b) +:+ c) = String x (a +:+ (b +:+ c))). rewrite IH. reflexivity.
Qed.

(** A type name that has a numeric type name inside it is numeric too,
    whatever surrounds it and whatever the letter case. *)
Theorem numeric_dtype_embedded (s before after : string) :
  is_numeric_dtype (Some s) = true ->
  is_numeric_dtype (Some (before +:+ s +:+ after)) = true.
Proof.
  unfold is_numeric_dtype. rewrite !existsb_exists.
  intros [x [Hin H]]. exists x. split; [exact Hin|].
  cbn [default from_option id] in *.
  apply str_in_app in H as [l [r Hs]]. apply str_in_app.
  exists (lower before +:+ l), (r +:+ lower after).
  rewrite !lower_app, Hs.
  rewrite !str_app_assoc. reflexivity.
Qed.

Lemma numeric_dtype_embedded_witness :
  is_numeric_dtype (Some ("non_" +:+ "NUMERIC" +:+ "_code")) = true.
Proof. apply (numeric_dtype_embedded "NUMERIC" "non_" "_code"). reflexivity. Defined.
